(** * node-inspector: the front-end command dispatcher and the debugger agent

    A shallow embedding of [lib/FrontendCommandHandler.js] and of the
    debugger agent (webkit-inspector's DebuggerAgent for node), together with
    the event-loop semantics both run under.

    JavaScript code runs to completion; a call that takes a node-style
    callback only registers the callback, which the environment fires in a
    later turn.  A piece of code is therefore a finite tree ([proc]): its
    spine is what runs synchronously, and each asynchronous call carries the
    callback that a later turn runs. *)

From stdpp Require Import base strings list gmap.
From Stdlib Require Import ZArith Lia Ascii.

Set Warnings "-register-all".
Local Open Scope string_scope.
Local Open Scope list_scope.

(** ** JSON values

    Commands, parameters, backend bodies and results are JSON.  Numbers are
    the integers of the protocols (ids, line numbers, breakpoint numbers). *)

Inductive value : Type :=
| VUndefined
| VNull
| VBool (b : bool)
| VNum (n : Z)
| VStr (s : string)
| VArr (items : list value)
| VObj (fields : list (string * value)).

(** JavaScript truthiness, as tested by [if (x)], [!x], [x || y], [x ? a : b]. *)
Definition truthy (v : value) : bool :=
  match v with
  | VUndefined | VNull => false
  | VBool b => b
  | VNum n => negb (n =? 0)%Z
  | VStr s => negb (String.eqb s "")
  | VArr _ | VObj _ => true
  end.

(** [x != null]: neither null nor undefined. *)
Definition not_nullish (v : value) : bool :=
  match v with
  | VUndefined | VNull => false
  | _ => true
  end.

(** [x !== undefined]. *)
Definition is_defined (v : value) : bool :=
  match v with
  | VUndefined => false
  | _ => true
  end.

(** [a || b]. *)
Definition js_or (a b : value) : value := if truthy a then a else b.

Fixpoint assoc (k : string) (fields : list (string * value)) : value :=
  match fields with
  | [] => VUndefined
  | (k', v) :: rest => if String.eqb k k' then v else assoc k rest
  end.

(** ** Actions on the collaborators *)

(** Calls that return at once. *)
Inductive output : Type :=
| Log (args : list value)                       (* console.log(...) *)
| SendResponse (id error result : value)        (* frontendClient.sendResponse *)
| SendEvent (name : string)                     (* frontendClient.sendEvent *)
| SendLogToConsole (level : string) (message : list value)
                                                (* frontendClient.sendLogToConsole;
                                                   the message is the [+] of the parts *)
| Connect                                       (* debuggerClient.connect() *)
| Close                                         (* debuggerClient.close() *)
| ScriptReset                                   (* scriptManager.reset() *)
| AddScript (script : value)                    (* scriptManager.addScript *)
| SendBacktraceToFrontend (filter : value)      (* breakEventHandler.sendBacktraceToFrontend *)
| SetContinueToLocationBreakpointId (id : value).
                                                (* breakEventHandler.continueToLocationBreakpointId = id *)

(** Calls that take a node-style callback [function(err, response)]. *)
Inductive call : Type :=
| Request (command : string) (args : value)     (* debuggerClient.request *)
| ClearBreakpoint (number : value)              (* debuggerClient.clearBreakpoint *)
| FetchCallFrames.                              (* breakEventHandler.fetchCallFrames *)

(** ** Code *)

Inductive proc : Type :=
| Ret                                           (* return to the caller *)
| Throw (error : string)                        (* an exception nobody catches *)
| Out (o : output) (k : proc)
| Done (error result : value) (k : proc)        (* the method's completion callback *)
| Async (c : call) (callback : value -> value -> proc) (k : proc)
| On (listener : proc) (k : proc)               (* debuggerClient.on('connect', listener) *)
| SetCallbackForNextBreak (callback : value -> proc) (k : proc)
                                                (* breakEventHandler.callbackForNextBreak = callback *)
| IfRunning (running paused : proc).            (* branches on debuggerClient.isRunning *)

(** [p; q]: the statements of [q] follow those of [p]; a throw in [p] skips
    them, callbacks registered by [p] do not wait for them. *)
Fixpoint seq (p q : proc) : proc :=
  match p with
  | Ret => q
  | Throw e => Throw e
  | Out o k => Out o (seq k q)
  | Done e r k => Done e r (seq k q)
  | Async c cb k => Async c cb (seq k q)
  | On l k => On l (seq k q)
  | SetCallbackForNextBreak cb k => SetCallbackForNextBreak cb (seq k q)
  | IfRunning a b => IfRunning (seq a q) (seq b q)
  end.

(** Binds the completion callback of a method: every [Done] of [p], on the
    spine and inside every callback and listener it registers, becomes a
    call of [done]. *)
Fixpoint with_done (done : value -> value -> proc) (p : proc) : proc :=
  match p with
  | Ret => Ret
  | Throw e => Throw e
  | Out o k => Out o (with_done done k)
  | Done e r k => seq (done e r) (with_done done k)
  | Async c cb k => Async c (fun e r => with_done done (cb e r)) (with_done done k)
  | On l k => On (with_done done l) (with_done done k)
  | SetCallbackForNextBreak cb k =>
      SetCallbackForNextBreak (fun d => with_done done (cb d)) (with_done done k)
  | IfRunning a b => IfRunning (with_done done a) (with_done done b)
  end.

(** [v.k] as a statement: reading a property of undefined or null throws. *)
Definition getp (v : value) (k : string) (cont : value -> proc) : proc :=
  match v with
  | VUndefined | VNull => Throw "TypeError"
  | VObj fields => cont (assoc k fields)
  | _ => cont VUndefined
  end.

(** A value used as a function: what callers pass as [done] is either a
    function or, when the call came from outside, plain JSON. *)
Inductive callable : Type :=
| Fn (f : value -> proc)
| NotFn (v : value).

Definition invoke (c : callable) (arg : value) : proc :=
  match c with
  | Fn f => f arg
  | NotFn _ => Throw "TypeError"
  end.

(** ** lib/FrontendCommandHandler.js *)

(** [s.split(sep)] for a one-character separator. *)
Fixpoint split (sep : ascii) (s : string) : list string :=
  match s with
  | EmptyString => [EmptyString]
  | String c rest =>
      if Ascii.eqb c sep then EmptyString :: split sep rest
      else match split sep rest with
           | [] => [String c EmptyString]
           | piece :: pieces => String c piece :: pieces
           end
  end.

(** What a property of an agent holds: a function of [(params, done)], or
    anything else.  The registries and the agents hold what the sources put
    there; what every object inherits from Object.prototype is left out. *)
Inductive property : Type :=
| PFun (method : value -> proc)
| PData.

(** [v.k] as an expression, for a [v] known not to be null or undefined. *)
Definition field (k : string) (v : value) : value :=
  match v with
  | VObj fields => assoc k fields
  | _ => VUndefined
  end.

Record FrontendCommandHandler : Type := {
  _agents : gmap string (gmap string property);
  _specialCommands : gmap string value
}.

Definition _registerAgent (name : string) (agent : gmap string property)
    (this : FrontendCommandHandler) : FrontendCommandHandler :=
  {| _agents := <[name := agent]> (_agents this);
     _specialCommands := _specialCommands this |}.

Definition _registerNoopCommands (names : list string)
    (this : FrontendCommandHandler) : FrontendCommandHandler :=
  {| _agents := _agents this;
     _specialCommands :=
       fold_left (fun specials fullMethodName => <[fullMethodName := VObj []]> specials)
                 names (_specialCommands this) |}.

Definition _registerQuery (fullMethodName : string) (result : value)
    (this : FrontendCommandHandler) : FrontendCommandHandler :=
  {| _agents := _agents this;
     _specialCommands :=
       <[fullMethodName := VObj [("result", result)]]> (_specialCommands this) |}.

Definition _handleMethodResult (requestId : value) (fullMethodName : string)
    (error result : value) : proc :=
  let response := VUndefined in
  if negb (truthy requestId) then
    if is_defined response
    then Out (Log [VStr ("Warning: discarded result of " ++ fullMethodName)]) Ret
    else Ret
  else Out (SendResponse requestId error result) Ret.

Definition handleCommand (this : FrontendCommandHandler) (messageObject : value) : proc :=
  getp messageObject "method" (fun method =>
  match method with
  | VStr fullMethodName =>
      let domainAndMethod := split "."%char fullMethodName in
      let domainName := hd "" domainAndMethod in
      let methodName := domainAndMethod !! 1%nat in
      let special := default VUndefined (_specialCommands this !! fullMethodName) in
      if truthy special then
        _handleMethodResult (field "id" messageObject) fullMethodName
                            VNull (field "result" special)
      else
        match _agents this !! domainName with
        | None =>
            Out (Log [VStr "Received request for an unknown domain %s: %s";
                      VStr domainName; VStr fullMethodName]) Ret
        | Some agent =>
            match agent !! default "undefined" methodName with
            | Some (PFun method) =>
                with_done
                  (fun error result =>
                     _handleMethodResult (field "id" messageObject) fullMethodName
                                         error result)
                  (method (field "params" messageObject))
            | _ =>
                Out (Log [VStr "Received request for an unknown method %s: %s";
                          from_option VStr VUndefined methodName;
                          VStr fullMethodName]) Ret
            end
        end
  | _ => Throw "TypeError"
  end).

(** ** The async library, as the agent uses it

    [callback = callback || function () {}]. *)
Definition or_noop (callback : callable) : callable :=
  match callback with
  | Fn _ => callback
  | NotFn v => if truthy v then callback else Fn (fun _ => Ret)
  end.

(** [iterate()] of async.eachSeries: one item at a time, the next one only
    from the callback of the one before; the first error ends the series. *)
Fixpoint iterate (arr : list value) (iterator : value -> (value -> proc) -> proc)
    (callback : callable) : proc :=
  match arr with
  | [] => invoke callback VUndefined
  | item :: rest =>
      iterator item (fun err =>
        if truthy err then invoke callback err
        else iterate rest iterator callback)
  end.

Definition eachSeries (arr : list value) (iterator : value -> (value -> proc) -> proc)
    (callback : callable) : proc :=
  iterate arr iterator (or_noop callback).

(** async.waterfall without a final callback: each task gets the callback
    that starts the next one; an error ends the waterfall and goes to the
    final callback, which is the empty function here.  The library starts
    each task in a tick of its own; the model starts it within the turn that
    asked for it. *)
Fixpoint waterfall (tasks : list (callable -> proc)) : proc :=
  match tasks with
  | [] => Ret
  | task :: rest =>
      task (Fn (fun err => if truthy err then Ret else waterfall rest))
  end.

(** An array that came from the backend.  The wire protocol makes these
    bodies arrays; [undefined] and [null] throw in the source, and a body
    of any other shape, which the protocol excludes, is treated like them. *)
Definition as_array (v : value) (cont : list value -> proc) : proc :=
  match v with
  | VArr items => cont items
  | _ => Throw "TypeError"
  end.

(** [v[0]]. *)
Definition first (v : value) (cont : value -> proc) : proc :=
  match v with
  | VUndefined | VNull => Throw "TypeError"
  | VArr items => cont (hd VUndefined items)
  | VObj fields => cont (assoc "0" fields)
  | VStr (String c _) => cont (VStr (String c EmptyString))
  | _ => cont VUndefined
  end.

(** ** What the agent takes from elsewhere *)

(** [convert.js] is another file of the project: its functions are
    parameters here. *)
Record Convert : Type := {
  inspectorScriptIdToV8Id : value -> value;
  inspectorUrlToV8Name : value -> value;
  v8LocationToInspectorLocation : value -> value;
  v8ErrorToInspectorError : value -> value;
  v8ResultToInspectorResult : value -> value;
  v8FunctionLookupToFunctionDetails : value -> value
}.

(** Operations of the language whose results the agent only passes on. *)
Record Builtins : Type := {
  Number : value -> value;                      (* Number(v) *)
  toString : value -> value;                    (* v.toString(), v not null *)
  looseEquals : value -> value -> bool;         (* a == b *)
  member : value -> value -> value              (* o[k], o not null *)
}.

(** ** The debugger agent *)

Section DebuggerAgent.

Context (convert : Convert) (js : Builtins).

Definition canSetScriptSource (params : value) : proc :=
  Done VNull (VObj [("result", VBool true)]) Ret.

(** [removeOneBreakpoint], the function nested in [_removeAllBreakpoints]. *)
Definition removeOneBreakpoint (bp : value) (next : value -> proc) : proc :=
  getp bp "number" (fun number =>
  Async (ClearBreakpoint number)
    (fun error _ =>
       if truthy error then
         Out (Log [VStr "Warning: cannot remove old breakpoint %d. %s";
                   number; error])
             (next VUndefined)
       else next VUndefined)
    Ret).

Definition _removeAllBreakpoints (done : callable) : proc :=
  Async (Request "listbreakpoints" (VObj []))
    (fun err response =>
       if truthy err then
         Out (Log [VStr "Warning: cannot remove old breakpoints. %s"; err])
             (invoke done VUndefined)
       else
         getp response "breakpoints" (fun breakpoints =>
         as_array breakpoints (fun breakpoints =>
         eachSeries breakpoints removeOneBreakpoint done)))
    Ret.

Definition _reloadScripts (done : callable) : proc :=
  Out ScriptReset
    (Async (Request "scripts"
              (VObj [("includeSource", VBool false); ("types", VNum 4)]))
       (fun err result =>
          if truthy err then invoke done err
          else
            as_array result (fun scripts =>
            seq (foldr (fun script k => Out (AddScript script) k) Ret scripts)
                (invoke done VUndefined)))
       Ret).

Definition _sendBacktraceIfPaused (done : callable) : proc :=
  IfRunning
    (invoke done VUndefined)
    (Out (SendBacktraceToFrontend VNull) (invoke done VUndefined)).

Definition _onDebuggerConnect : proc :=
  waterfall [_removeAllBreakpoints; _reloadScripts; _sendBacktraceIfPaused].

Definition enable (params : value) : proc :=
  On (Done VUndefined VUndefined _onDebuggerConnect)
     (Out Connect Ret).

Definition disable (params : value) : proc :=
  Out Close (Done VUndefined VUndefined Ret).

(** [_sendContinue(stepAction, done)]: [done] is the completion callback of
    the method that was dispatched. *)
Definition _sendContinue (stepAction : value) : proc :=
  let args := if truthy stepAction
              then VObj [("stepaction", stepAction)]
              else VUndefined in
  Async (Request "continue" args)
    (fun error result =>
       Done error VUndefined
         (if negb (truthy error)
          then Out (SendEvent "Debugger.resumed") Ret
          else Ret))
    Ret.

Definition resume (params : value) : proc := _sendContinue VUndefined.

Definition pause (params : value) : proc :=
  Async (Request "suspend" (VObj []))
    (fun error result =>
       Done error VUndefined
         (if negb (truthy error)
          then Out (SendBacktraceToFrontend VNull) Ret
          else Ret))
    Ret.

Definition stepOver (params : value) : proc := _sendContinue (VStr "next").
Definition stepInto (params : value) : proc := _sendContinue (VStr "in").
Definition stepOut (params : value) : proc := _sendContinue (VStr "out").

Definition continueToLocation (params : value) : proc :=
  getp params "location" (fun location =>
  getp location "scriptId" (fun scriptId =>
  let requestParams :=
    VObj [("type", VStr "scriptId");
          ("target", inspectorScriptIdToV8Id convert scriptId);
          ("line", field "lineNumber" location);
          ("column", field "columnNumber" location)] in
  Async (Request "setbreakpoint" requestParams)
    (fun error response =>
       if not_nullish error then Done error VUndefined Ret
       else
         getp response "breakpoint" (fun breakpoint =>
         Out (SetContinueToLocationBreakpointId breakpoint)
           (Async (Request "continue" VUndefined)
              (fun error response => Done error VUndefined Ret)
              Ret)))
    Ret)).

Definition getScriptSource (params : value) : proc :=
  getp params "scriptId" (fun scriptId =>
  Async (Request "scripts"
           (VObj [("includeSource", VBool true); ("types", VNum 4);
                  ("ids", VArr [scriptId])]))
    (fun err result =>
       if truthy err then Done err VUndefined Ret
       else
         first result (fun script =>
         getp script "source" (fun source =>
         Done VNull (VObj [("scriptSource", source)]) Ret)))
    Ret).

Definition setScriptSource (params : value) : proc :=
  getp params "scriptId" (fun scriptId =>
  Async (Request "changelive"
           (VObj [("script_id", inspectorScriptIdToV8Id convert scriptId);
                  ("new_source", field "scriptSource" params);
                  ("preview_only", VBool false)]))
    (fun err response =>
       if truthy err then Done err VUndefined Ret
       else
         let sendResponse (callframes : value) : proc :=
           Done VNull
                (VObj [("callFrames", js_or callframes (VArr []));
                       ("result", field "result" response)])
                Ret in
         let sendResponseWithCallStack : proc :=
           Async FetchCallFrames
             (fun err response =>
                if truthy err then
                  Out (SendLogToConsole "error"
                         [VStr "Cannot update stack trace after a script changed: ";
                          err])
                      (sendResponse (VArr []))
                else sendResponse response)
             Ret in
         let stepIntoAndSendResponse : proc :=
           SetCallbackForNextBreak (fun data => sendResponseWithCallStack)
             (Async (Request "continue" (VObj [("stepAction", VStr "in")]))
                (fun err response =>
                   if truthy err then
                     Out (SendLogToConsole "error"
                            [VStr "Cannot execute step-into after a script changed: ";
                             err;
                             VStr (String "010"
                                     "Please perform step-into yourself from the GUI.")])
                         sendResponseWithCallStack
                   else Ret)
                Ret) in
         getp response "result" (fun result =>
         getp result "stack_update_needs_step_in" (fun needs_step_in =>
         if truthy needs_step_in then stepIntoAndSendResponse
         else if truthy (field "stack_modified" result) then sendResponseWithCallStack
         else sendResponse VUndefined)))
    Ret).

Definition setPauseOnExceptions (params : value) : proc :=
  getp params "state" (fun state =>
  let args :=
    [VObj [("type", VStr "all");
           ("enabled", VBool (looseEquals js state (VStr "all")))];
     VObj [("type", VStr "uncaught");
           ("enabled", VBool (looseEquals js state (VStr "uncaught")))]] in
  eachSeries args
    (fun arg next =>
       Async (Request "setexceptionbreak" arg) (fun err _ => next err) Ret)
    (Fn (fun err => Done err VUndefined Ret))).

Definition setBreakpointByUrl (params : value) : proc :=
  getp params "urlRegex" (fun urlRegex =>
  if is_defined urlRegex then
    Done (VStr "Error: setBreakpointByUrl using urlRegex is not implemented.")
         VUndefined Ret
  else
    let requestParams :=
      VObj [("type", VStr "script");
            ("target", inspectorUrlToV8Name convert (field "url" params));
            ("line", field "lineNumber" params);
            ("column", field "columnNumber" params);
            ("condition", field "condition" params)] in
    Async (Request "setbreakpoint" requestParams)
      (fun error response =>
         if not_nullish error then Done error VUndefined Ret
         else
           getp response "breakpoint" (fun breakpoint =>
           if not_nullish breakpoint then
             getp response "actual_locations" (fun actual_locations =>
             as_array actual_locations (fun locations =>
             Done VNull
                  (VObj [("breakpointId", toString js breakpoint);
                         ("locations",
                          VArr (map (v8LocationToInspectorLocation convert)
                                    locations))])
                  Ret))
           else Throw "TypeError"))
      Ret).

Definition removeBreakpoint (params : value) : proc :=
  getp params "breakpointId" (fun breakpointId =>
  Async (ClearBreakpoint breakpointId)
    (fun error response => Done error VNull Ret)
    Ret).

Definition setBreakpointsActive (params : value) : proc :=
  Async (Request "listbreakpoints" (VObj []))
    (fun error response =>
       if truthy error then Done error VUndefined Ret
       else
         let setBreakpointState (bp : value) (next : value -> proc) : proc :=
           getp bp "number" (fun number =>
           getp params "active" (fun active =>
           let req := VObj [("breakpoint", number); ("enabled", active)] in
           Async (Request "changebreakpoint" req) (fun err _ => next err) Ret)) in
         getp response "breakpoints" (fun breakpoints =>
         as_array breakpoints (fun breakpoints =>
         eachSeries breakpoints setBreakpointState
                    (Fn (fun err => Done err VUndefined Ret)))))
    Ret.

Definition setOverlayMessage (params : value) : proc :=
  Done VUndefined VUndefined Ret.

Definition evaluateOnCallFrame (params : value) : proc :=
  getp params "expression" (fun expression =>
  let frame := Number js (field "callFrameId" params) in
  Async (Request "evaluate" (VObj [("expression", expression); ("frame", frame)]))
    (fun err result =>
       let err := if truthy err then v8ErrorToInspectorError convert err else err in
       Done VNull
            (VObj [("result", if truthy err then err
                              else v8ResultToInspectorResult convert result);
                   ("wasThrown", VBool (truthy err))])
            Ret)
    Ret).

Definition getFunctionDetails (params : value) : proc :=
  getp params "functionId" (fun handle =>
  Async (Request "lookup"
           (VObj [("handles", VArr [handle]); ("includeSource", VBool false)]))
    (fun error responseBody =>
       if truthy error then Done error VUndefined Ret
       else if not_nullish responseBody then
         Done VNull
              (v8FunctionLookupToFunctionDetails convert (member js responseBody handle))
              Ret
       else Throw "TypeError")
    Ret).

(** The properties of a DebuggerAgent instance: the four collaborators set
    by the constructor and the functions of its prototype.  Called through
    the dispatcher a function receives [(params, callback)]: a helper whose
    first parameter is [done] or [stepAction] gets the command's params
    there. *)
Definition DebuggerAgent : gmap string property :=
  list_to_map
    [("_frontendClient", PData);
     ("_debuggerClient", PData);
     ("_breakEventHandler", PData);
     ("_scriptManager", PData);
     ("canSetScriptSource", PFun canSetScriptSource);
     ("enable", PFun enable);
     ("_onDebuggerConnect", PFun (fun _ => _onDebuggerConnect));
     ("_removeAllBreakpoints", PFun (fun params => _removeAllBreakpoints (NotFn params)));
     ("_reloadScripts", PFun (fun params => _reloadScripts (NotFn params)));
     ("_sendBacktraceIfPaused", PFun (fun params => _sendBacktraceIfPaused (NotFn params)));
     ("disable", PFun disable);
     ("resume", PFun resume);
     ("_sendContinue", PFun _sendContinue);
     ("pause", PFun pause);
     ("stepOver", PFun stepOver);
     ("stepInto", PFun stepInto);
     ("stepOut", PFun stepOut);
     ("continueToLocation", PFun continueToLocation);
     ("getScriptSource", PFun getScriptSource);
     ("setScriptSource", PFun setScriptSource);
     ("setPauseOnExceptions", PFun setPauseOnExceptions);
     ("setBreakpointByUrl", PFun setBreakpointByUrl);
     ("removeBreakpoint", PFun removeBreakpoint);
     ("setBreakpointsActive", PFun setBreakpointsActive);
     ("setOverlayMessage", PFun setOverlayMessage);
     ("evaluateOnCallFrame", PFun evaluateOnCallFrame);
     ("getFunctionDetails", PFun getFunctionDetails)].

(** [_initializeRegistry], on the handler the constructor starts from.
    RuntimeAgent and PageAgent are other files: their property tables are
    parameters. *)
Definition _initializeRegistry (RuntimeAgent PageAgent : gmap string property)
    : FrontendCommandHandler :=
  _registerQuery "Worker.canInspectWorkers" (VObj [("result", VBool false)])
  (_registerQuery "CSS.getSupportedCSSProperties" (VObj [("cssProperties", VArr [])])
  (_registerNoopCommands
     ["Network.enable"; "Console.enable"; "Database.enable"; "DOMStorage.enable";
      "DOM.hideHighlight"; "Inspector.enable"; "Profiler.enable"; "CSS.enable"]
  (_registerAgent "Page" PageAgent
  (_registerAgent "Runtime" RuntimeAgent
  (_registerAgent "Debugger" DebuggerAgent
     {| _agents := ∅; _specialCommands := ∅ |}))))).

End DebuggerAgent.

(** ** The event loop *)

(** What the collaborators do to the core. *)
Inductive stimulus : Type :=
| Reply (n : nat) (err response : value)        (* the n-th outstanding call completes *)
| Connected                                     (* debuggerClient emits 'connect' *)
| Break (data : value)                          (* the break handler sees a pause *)
| Running (b : bool).                           (* debuggerClient.isRunning changes *)

Inductive event : Type :=
| Did (o : output)
| Called (c : call)
| Got (s : stimulus)
| Completed (error result : value)              (* a [Done] nobody has bound *)
| Uncaught (error : string).

Record world : Type := {
  listeners : list proc;                        (* of 'connect', in registration order *)
  outstanding : list (call * (value -> value -> proc));
  callbackForNextBreak : option (value -> proc);
  isRunning : bool;
  trace : list event                            (* oldest first *)
}.

Definition initial : world :=
  {| listeners := []; outstanding := []; callbackForNextBreak := None;
     isRunning := true; trace := [] |}.

Definition record (e : event) (w : world) : world :=
  {| listeners := listeners w; outstanding := outstanding w;
     callbackForNextBreak := callbackForNextBreak w;
     isRunning := isRunning w; trace := trace w ++ [e] |}.

Definition add_listener (l : proc) (w : world) : world :=
  {| listeners := listeners w ++ [l]; outstanding := outstanding w;
     callbackForNextBreak := callbackForNextBreak w;
     isRunning := isRunning w; trace := trace w |}.

Definition set_outstanding (o : list (call * (value -> value -> proc)))
    (w : world) : world :=
  {| listeners := listeners w; outstanding := o;
     callbackForNextBreak := callbackForNextBreak w;
     isRunning := isRunning w; trace := trace w |}.

Definition set_callbackForNextBreak (cb : option (value -> proc)) (w : world) : world :=
  {| listeners := listeners w; outstanding := outstanding w;
     callbackForNextBreak := cb;
     isRunning := isRunning w; trace := trace w |}.

Definition set_isRunning (b : bool) (w : world) : world :=
  {| listeners := listeners w; outstanding := outstanding w;
     callbackForNextBreak := callbackForNextBreak w;
     isRunning := b; trace := trace w |}.

(** One turn: the spine of [p] runs to its end or to a throw. *)
Fixpoint exec (p : proc) (w : world) : world :=
  match p with
  | Ret => w
  | Throw e => record (Uncaught e) w
  | Out o k => exec k (record (Did o) w)
  | Done e r k => exec k (record (Completed e r) w)
  | Async c cb k =>
      exec k (record (Called c) (set_outstanding (outstanding w ++ [(c, cb)]) w))
  | On l k => exec k (add_listener l w)
  | SetCallbackForNextBreak cb k => exec k (set_callbackForNextBreak (Some cb) w)
  | IfRunning a b => if isRunning w then exec a w else exec b w
  end.

(** Modelled from the spec: the request/response correlation of the Wire
    Client and the next-pause slot of the Break Notifier, which are other
    files.  A reply fires the callback of one outstanding call, once; the
    next-pause callback is a one-shot slot, which a pause empties and fires.
    The listeners of 'connect' are what the agent registered with [on], the
    EventEmitter's: [on] keeps a listener registered, and an emitted
    'connect' runs the registered listeners in order. *)
Definition react (s : stimulus) (w : world) : world :=
  let w := record (Got s) w in
  match s with
  | Reply n err response =>
      match outstanding w !! n with
      | Some (_, callback) =>
          exec (callback err response) (set_outstanding (delete n (outstanding w)) w)
      | None => w
      end
  | Connected => exec (foldr seq Ret (listeners w)) w
  | Break data =>
      match callbackForNextBreak w with
      | Some callback => exec (callback data) (set_callbackForNextBreak None w)
      | None => w
      end
  | Running b => set_isRunning b w
  end.

Inductive input : Type :=
| Frontend (message : value)                    (* a parsed front-end message *)
| Backend (s : stimulus).

(** [_handleFrontendMessage] on the parsed message, or a stimulus. *)
Definition step (this : FrontendCommandHandler) (i : input) (w : world) : world :=
  match i with
  | Frontend messageObject => exec (handleCommand this messageObject) w
  | Backend s => react s w
  end.

Definition run (this : FrontendCommandHandler) (inputs : list input) (w : world)
    : world :=
  fold_left (fun w i => step this i w) inputs w.

(** The responses of a trace, oldest first. *)
Definition responses (t : list event) : list (value * value * value) :=
  omap (fun e => match e with
                 | Did (SendResponse id error result) => Some (id, error, result)
                 | _ => None
                 end) t.

Definition completions (t : list event) : list (value * value) :=
  omap (fun e => match e with
                 | Completed error result => Some (error, result)
                 | _ => None
                 end) t.

(** ** Reading traces *)

(** A callback that only makes calls that return at once. *)
Definition outs (os : list output) : proc := foldr Out Ret os.

(** The trace of a method run on its own, read after its completion
    callback is bound to one that makes the calls [f error result]. *)
Definition expand (f : value -> value -> list output) (t : list event) : list event :=
  t ≫= (fun e => match e with
                 | Completed error result => Did <$> f error result
                 | _ => [e]
                 end).

(** The same reading for what a world holds for later turns. *)
Definition bind_world (done : value -> value -> proc)
    (f : value -> value -> list output) (w : world) : world :=
  {| listeners := with_done done <$> listeners w;
     outstanding :=
       (fun entry : call * (value -> value -> proc) =>
          (entry.1, fun e r => with_done done (entry.2 e r))) <$> outstanding w;
     callbackForNextBreak :=
       (fun (cb : value -> proc) d => with_done done (cb d)) <$> callbackForNextBreak w;
     isRunning := isRunning w;
     trace := expand f (trace w) |}.

Definition reactions (stimuli : list stimulus) (w : world) : world :=
  fold_left (fun w s => react s w) stimuli w.

(** A front-end command. *)
Definition command (id : value) (method : string) (params : value) : value :=
  VObj [("id", id); ("method", VStr method); ("params", params)].

(** [a] occurs in [t] strictly before [b]. *)
Definition precedes (a b : event) (t : list event) : Prop :=
  exists i j : nat, i < j /\ t !! i = Some a /\ t !! j = Some b.

(** Stand-ins for [convert.js] and for the language's operations, to run
    examples with. *)
Definition example_convert : Convert :=
  {| inspectorScriptIdToV8Id := fun v => v;
     inspectorUrlToV8Name := fun v => v;
     v8LocationToInspectorLocation := fun v => v;
     v8ErrorToInspectorError := fun message =>
       VObj [("type", VStr "object"); ("description", message)];
     v8ResultToInspectorResult := fun v => v;
     v8FunctionLookupToFunctionDetails := fun v => v |}.

Definition example_js : Builtins :=
  {| Number := fun v => v;
     toString := fun v => v;
     looseEquals := fun a b =>
       match a, b with
       | VStr x, VStr y => String.eqb x y
       | _, _ => false
       end;
     member := fun o k => VUndefined |}.

Definition example_handler : FrontendCommandHandler :=
  _initializeRegistry example_convert example_js ∅ ∅.

(** The commands that pause or resume, each with the backend request it
    makes and the notification it sends the front end on success. *)
Definition pause_and_resume_commands : list (string * call * output) :=
  [("Debugger.pause", Request "suspend" (VObj []), SendBacktraceToFrontend VNull);
   ("Debugger.resume", Request "continue" VUndefined, SendEvent "Debugger.resumed");
   ("Debugger.stepOver", Request "continue" (VObj [("stepaction", VStr "next")]),
    SendEvent "Debugger.resumed");
   ("Debugger.stepInto", Request "continue" (VObj [("stepaction", VStr "in")]),
    SendEvent "Debugger.resumed");
   ("Debugger.stepOut", Request "continue" (VObj [("stepaction", VStr "out")]),
    SendEvent "Debugger.resumed")].

Definition record_all (es : list event) (w : world) : world :=
  {| listeners := listeners w; outstanding := outstanding w;
     callbackForNextBreak := callbackForNextBreak w;
     isRunning := isRunning w; trace := trace w ++ es |}.

(** The backend answers the one outstanding call. *)
Definition answers (replies : list (value * value)) : list stimulus :=
  (fun reply : value * value => Reply 0 reply.1 reply.2) <$> replies.

(** What clearing the breakpoints numbered [numbers] leaves in the trace
    when the backend answers the clear requests with [replies]: one request
    at a time, its answer, and a warning where the answer is an error. *)
Fixpoint clearing (numbers : list value) (replies : list (value * value)) : list event :=
  match numbers, replies with
  | number :: numbers, (error, response) :: replies =>
      [Called (ClearBreakpoint number); Got (Reply 0 error response)]
      ++ (if truthy error
          then [Did (Log [VStr "Warning: cannot remove old breakpoint %d. %s";
                          number; error])]
          else [])
      ++ clearing numbers replies
  | _, _ => []
  end.

(** The breakpoint numbers of the clear requests of a trace, oldest first. *)
Definition clear_requests (t : list event) : list value :=
  omap (fun e => match e with
                 | Called (ClearBreakpoint number) => Some number
                 | _ => None
                 end) t.

Definition scripts_request : call :=
  Request "scripts" (VObj [("includeSource", VBool false); ("types", VNum 4)]).

(** The world in which the bootstrap of one [enable] starts: the listener
    is registered, 'connect' has fired it, and it has completed the call. *)
Definition connected (b : bool) : world :=
  {| listeners := [Done VUndefined VUndefined _onDebuggerConnect];
     outstanding := [];
     callbackForNextBreak := None;
     isRunning := b;
     trace := [Did Connect; Got (Running b); Got Connected;
               Completed VUndefined VUndefined] |}.

(** The calls [_handleMethodResult] makes for one completion. *)
Definition method_result_calls (id error result : value) : list output :=
  if truthy id then [SendResponse id error result] else [].


(** The live-edit request that setScriptSource makes for its params. *)
Definition changelive_request (convert : Convert) (fields : list (string * value)) : call :=
  Request "changelive"
    (VObj [("script_id", inspectorScriptIdToV8Id convert (assoc "scriptId" fields));
           ("new_source", assoc "scriptSource" fields);
           ("preview_only", VBool false)]).

(** ** More of the agent, and more readings *)

(** [setBreakpointState], the function nested in [setBreakpointsActive]. *)
Definition setBreakpointState (params bp : value) (next : value -> proc) : proc :=
  getp bp "number" (fun number =>
  getp params "active" (fun active =>
  let req := VObj [("breakpoint", number); ("enabled", active)] in
  Async (Request "changebreakpoint" req) (fun err _ => next err) Ret)).



(** The breakpoints a trace asked the backend to change, oldest first. *)
Definition change_requests (t : list event) : list value :=
  omap (fun e => match e with
                 | Called (Request "changebreakpoint" args) => Some (field "breakpoint" args)
                 | _ => None
                 end) t.

(** The requests a trace made of the backend, oldest first. *)
Definition calls (t : list event) : list call :=
  omap (fun e => match e with
                 | Called c => Some c
                 | _ => None
                 end) t.


(** The request setBreakpointByUrl makes for its params. *)
Definition setbreakpoint_by_url_request (convert : Convert)
    (fields : list (string * value)) : call :=
  Request "setbreakpoint"
    (VObj [("type", VStr "script");
           ("target", inspectorUrlToV8Name convert (assoc "url" fields));
           ("line", assoc "lineNumber" fields);
           ("column", assoc "columnNumber" fields);
           ("condition", assoc "condition" fields)]).

(** The request continueToLocation makes for a location. *)
Definition setbreakpoint_at_location_request (convert : Convert)
    (location : list (string * value)) : call :=
  Request "setbreakpoint"
    (VObj [("type", VStr "scriptId");
           ("target", inspectorScriptIdToV8Id convert (assoc "scriptId" location));
           ("line", assoc "lineNumber" location);
           ("column", assoc "columnNumber" location)]).

(** The commands that complete within the turn that dispatches them, each
    with the calls it makes first and the error and result it completes
    with. *)
Definition synchronous_commands : list (string * list output * value * value) :=
  [("Debugger.canSetScriptSource", [], VNull, VObj [("result", VBool true)]);
   ("Debugger.disable", [Close], VUndefined, VUndefined);
   ("Debugger.setOverlayMessage", [], VUndefined, VUndefined)].

(** The commands whose method reads a property of its params before it does
    anything else. *)
Definition params_reading_commands : list string :=
  ["Debugger.continueToLocation"; "Debugger.getScriptSource";
   "Debugger.setScriptSource"; "Debugger.setPauseOnExceptions";
   "Debugger.setBreakpointByUrl"; "Debugger.removeBreakpoint";
   "Debugger.evaluateOnCallFrame"; "Debugger.getFunctionDetails"].

(** Code that never completes a command and never sends a response, in
    its turn or in any callback or listener it registers. *)
Fixpoint silent (p : proc) : Prop :=
  match p with
  | Ret => True
  | Throw _ => True
  | Out o k => (forall id error result, o <> SendResponse id error result) /\ silent k
  | Done _ _ _ => False
  | Async _ callback k => (forall err response, silent (callback err response)) /\ silent k
  | On listener k => silent listener /\ silent k
  | SetCallbackForNextBreak callback k => (forall data, silent (callback data)) /\ silent k
  | IfRunning running paused => silent running /\ silent paused
  end.

(** A world that holds only such code. *)
Definition silent_world (w : world) : Prop :=
  Forall silent (listeners w)
  /\ Forall (fun entry : call * (value -> value -> proc) =>
               forall err response, silent (entry.2 err response))
            (outstanding w)
  /\ (forall callback, callbackForNextBreak w = Some callback ->
                       forall data, silent (callback data)).

(** The helpers of the agent that take [done] first or take nothing, by the
    names a command reaches them under. *)
Definition helper_commands : list string :=
  ["Debugger._onDebuggerConnect"; "Debugger._removeAllBreakpoints";
   "Debugger._reloadScripts"; "Debugger._sendBacktraceIfPaused"].

(** * Properties *)

(** ** Sequencing and binding *)

Lemma seq_Ret_r p : seq p Ret = p.
Proof. induction p; simpl; congruence. Qed.

Lemma seq_assoc p q r : seq (seq p q) r = seq p (seq q r).
Proof. induction p; simpl; congruence. Qed.

Lemma with_done_seq done p q :
  with_done done (seq p q) = seq (with_done done p) (with_done done q).
Proof.
  induction p; simpl; try congruence.
  rewrite IHp. symmetry. apply seq_assoc.
Qed.

Lemma with_done_listeners done ls :
  with_done done (foldr seq Ret ls) = foldr seq Ret (with_done done <$> ls).
Proof.
  induction ls as [|l ls IH]; simpl; [done|].
  by rewrite with_done_seq, IH.
Qed.

Lemma expand_app f t1 t2 : expand f (t1 ++ t2) = expand f t1 ++ expand f t2.
Proof. unfold expand. apply bind_app. Qed.

Lemma exec_outs os q w :
  exec (seq (outs os) q) w
  = exec q {| listeners := listeners w; outstanding := outstanding w;
              callbackForNextBreak := callbackForNextBreak w;
              isRunning := isRunning w; trace := trace w ++ (Did <$> os) |}.
Proof.
  revert w. induction os as [|o os IH]; intros w; simpl.
  - rewrite app_nil_r. by destruct w.
  - rewrite IH. simpl. by rewrite <- app_assoc.
Qed.

Section Binding.

Context (done : value -> value -> proc) (f : value -> value -> list output).
Hypothesis done_outs : forall e r, done e r = outs (f e r).

Lemma exec_with_done p w :
  exec (with_done done p) (bind_world done f w) = bind_world done f (exec p w).
Proof.
  revert w. induction p as [| |o k IH|e r k IH|c cb _ k IH|l _ k IH|cb _ k IH|a IHa b IHb];
    intros w; simpl.
  - done.
  - unfold bind_world, record; simpl. by rewrite expand_app.
  - rewrite <- IH. f_equal. unfold bind_world, record; simpl. by rewrite expand_app.
  - rewrite done_outs, exec_outs, <- IH. f_equal.
    unfold bind_world, record; simpl. rewrite expand_app. simpl.
    by rewrite app_nil_r.
  - rewrite <- IH. f_equal. unfold bind_world, record, set_outstanding; simpl.
    by rewrite expand_app, fmap_app.
  - rewrite <- IH. f_equal. unfold bind_world, add_listener; simpl.
    by rewrite fmap_app.
  - rewrite <- IH. f_equal.
  - destruct (isRunning w); [apply IHa | apply IHb].
Qed.

Lemma delete_fmap_list {A B} (g : A -> B) (n : nat) (l : list A) :
  delete n (g <$> l) = g <$> delete n l.
Proof.
  revert n. induction l as [|x l IH]; intros [|n]; simpl; try done.
  f_equal. apply IH.
Qed.

Lemma react_with_done s w :
  react s (bind_world done f w) = bind_world done f (react s w).
Proof.
  assert (Hrec : record (Got s) (bind_world done f w)
                 = bind_world done f (record (Got s) w)).
  { unfold bind_world, record; simpl. by rewrite expand_app. }
  unfold react. rewrite Hrec. destruct s as [n err response| |data|b]; simpl.
  - rewrite list_lookup_fmap.
    destruct (outstanding w !! n) as [[c cb]|]; simpl; [|done].
    rewrite <- exec_with_done. f_equal.
    unfold bind_world, set_outstanding; simpl. by rewrite delete_fmap_list.
  - rewrite <- with_done_listeners. apply exec_with_done.
  - destruct (callbackForNextBreak w) as [cb|]; simpl; [|done].
    rewrite <- exec_with_done. f_equal.
  - done.
Qed.

Lemma reactions_with_done stimuli w :
  reactions stimuli (bind_world done f w) = bind_world done f (reactions stimuli w).
Proof.
  revert w. induction stimuli as [|s stimuli IH]; intros w; simpl; [done|].
  by rewrite react_with_done, IH.
Qed.

End Binding.

(** ** The dispatcher *)

Lemma handleCommand_special this fields fullMethodName :
  assoc "method" fields = VStr fullMethodName ->
  let special := default VUndefined (_specialCommands this !! fullMethodName) in
  truthy special = true ->
  handleCommand this (VObj fields)
  = _handleMethodResult (assoc "id" fields) fullMethodName VNull (field "result" special).
Proof.
  intros Hm special Hs. unfold handleCommand; simpl. rewrite Hm.
  fold special. by rewrite Hs.
Qed.

Lemma handleCommand_resolved this fields fullMethodName agent method :
  assoc "method" fields = VStr fullMethodName ->
  truthy (default VUndefined (_specialCommands this !! fullMethodName)) = false ->
  _agents this !! hd "" (split "." fullMethodName) = Some agent ->
  agent !! default "undefined" (split "." fullMethodName !! 1%nat) = Some (PFun method) ->
  handleCommand this (VObj fields)
  = with_done
      (fun error result =>
         _handleMethodResult (assoc "id" fields) fullMethodName error result)
      (method (assoc "params" fields)).
Proof.
  intros Hm Hs Ha Hp. unfold handleCommand; simpl.
  by rewrite Hm, Hs, Ha, Hp.
Qed.


Lemma _handleMethodResult_with_id requestId fullMethodName error result :
  truthy requestId = true ->
  _handleMethodResult requestId fullMethodName error result
  = outs [SendResponse requestId error result].
Proof. intros H. unfold _handleMethodResult. by rewrite H. Qed.

(** What a resolved method does under the dispatcher, turn after turn, is
    what it does on its own with each completion read as the calls that
    [_handleMethodResult] makes for it. *)
Lemma dispatch_resolved this fields fullMethodName agent method f stimuli :
  assoc "method" fields = VStr fullMethodName ->
  truthy (default VUndefined (_specialCommands this !! fullMethodName)) = false ->
  _agents this !! hd "" (split "." fullMethodName) = Some agent ->
  agent !! default "undefined" (split "." fullMethodName !! 1%nat) = Some (PFun method) ->
  (forall error result,
     _handleMethodResult (assoc "id" fields) fullMethodName error result
     = outs (f error result)) ->
  reactions stimuli (step this (Frontend (VObj fields)) initial)
  = bind_world
      (fun error result =>
         _handleMethodResult (assoc "id" fields) fullMethodName error result)
      f
      (reactions stimuli (exec (method (assoc "params" fields)) initial)).
Proof.
  intros Hm Hs Ha Hp Hf. unfold step.
  rewrite (handleCommand_resolved _ _ _ _ _ Hm Hs Ha Hp).
  set (done := fun error result => _handleMethodResult _ _ error result).
  change initial with (bind_world done f initial) at 1.
  by rewrite (exec_with_done done f Hf), (reactions_with_done done f Hf).
Qed.

(** A world that holds nothing for later turns only records what it gets. *)
Lemma reactions_quiet stimuli w :
  listeners w = [] -> outstanding w = [] -> callbackForNextBreak w = None ->
  trace (reactions stimuli w) = trace w ++ (Got <$> stimuli).
Proof.
  revert w. induction stimuli as [|s stimuli IH]; intros w Hl Ho Hc; simpl.
  - by rewrite app_nil_r.
  - assert (Hstep : listeners (react s w) = [] /\ outstanding (react s w) = []
                    /\ callbackForNextBreak (react s w) = None
                    /\ trace (react s w) = trace w ++ [Got s]).
    { unfold react. destruct s as [n err response| |data|b]; simpl.
      - rewrite Ho. by destruct n.
      - by rewrite Hl.
      - by rewrite Hc.
      - done. }
    destruct Hstep as (Hl' & Ho' & Hc' & Ht').
    rewrite IH by done. rewrite Ht'. by rewrite <- app_assoc.
Qed.




(** C4.  The result of a command without an id is discarded and no response
    is sent, but the diagnostic is never logged: [_handleMethodResult] tests
    its own unassigned [response], not [result].  At
    [{method: "Debugger.canSetScriptSource"}] the method completes with
    [{result: true}] and the dispatcher neither responds nor logs. *)
Theorem C4_discarded_result_not_logged convert js RuntimeAgent PageAgent :
  (forall requestId fullMethodName error result,
     _handleMethodResult requestId fullMethodName error result
     = if truthy requestId then Out (SendResponse requestId error result) Ret
       else Ret)
  /\ completions (trace (exec (canSetScriptSource VUndefined) initial))
     = [(VNull, VObj [("result", VBool true)])]
  /\ trace (step (_initializeRegistry convert js RuntimeAgent PageAgent)
              (Frontend (VObj [("method", VStr "Debugger.canSetScriptSource")]))
              initial) = [].
Proof.
  split; [|split].
  - intros requestId fullMethodName error result. unfold _handleMethodResult.
    by destruct (truthy requestId).
  - reflexivity.
  - reflexivity.
Qed.

(** C9.  A command object without a method makes [handleCommand] throw
    where it splits the name: the turn ends there, with no response and no
    diagnostic. *)
Theorem C9_handleCommand_throws_without_method this fields w :
  assoc "method" fields = VUndefined ->
  handleCommand this (VObj fields) = Throw "TypeError"
  /\ step this (Frontend (VObj fields)) w = record (Uncaught "TypeError") w.
Proof.
  intros Hm.
  assert (H : handleCommand this (VObj fields) = Throw "TypeError").
  { unfold handleCommand; simpl. by rewrite Hm. }
  split; [done|]. unfold step. by rewrite H.
Qed.

Lemma C9_handleCommand_throws_without_method_witness :
  handleCommand example_handler (VObj [("id", VNum 3); ("params", VObj [])])
  = Throw "TypeError"
  /\ step example_handler (Frontend (VObj [("id", VNum 3); ("params", VObj [])])) initial
     = record (Uncaught "TypeError") initial.
Proof.
  exact (C9_handleCommand_throws_without_method example_handler
           [("id", VNum 3); ("params", VObj [])] initial eq_refl).
Defined.

(** No static override of the initial registry names a method of a
    registered agent. *)
Lemma initial_registry_no_override convert js RuntimeAgent PageAgent fullMethodName agent :
  _agents (_initializeRegistry convert js RuntimeAgent PageAgent)
    !! hd "" (split "." fullMethodName) = Some agent ->
  _specialCommands (_initializeRegistry convert js RuntimeAgent PageAgent)
    !! fullMethodName = None.
Proof.
  intros Ha.
  destruct (_specialCommands _ !! fullMethodName) as [v|] eqn:Hs; [|done].
  exfalso. unfold _initializeRegistry in Hs, Ha. simpl in Hs, Ha.
  repeat (rewrite lookup_insert in Hs; case_decide;
          [subst fullMethodName; vm_compute in Ha; discriminate|]).
  by rewrite lookup_empty in Hs.
Qed.



(** The helper reached from outside: [{method: "Debugger._sendContinue",
    params: "in"}] makes the backend step in. *)
Example dispatch_sendContinue :
  trace (run example_handler
           [Frontend (command (VNum 9) "Debugger._sendContinue" (VStr "in"));
            Backend (Reply 0 VNull VUndefined)] initial)
  = [Called (Request "continue" (VObj [("stepaction", VStr "in")]));
     Got (Reply 0 VNull VUndefined);
     Did (SendResponse (VNum 9) VNull VUndefined);
     Did (SendEvent "Debugger.resumed")].
Proof. reflexivity. Qed.

(** ** The debugger agent under the dispatcher *)

Lemma dispatch_to_DebuggerAgent convert js RuntimeAgent PageAgent
    id fullMethodName methodName method params :
  split "." fullMethodName = ["Debugger"; methodName] ->
  DebuggerAgent convert js !! methodName = Some (PFun method) ->
  handleCommand (_initializeRegistry convert js RuntimeAgent PageAgent)
                (command id fullMethodName params)
  = with_done
      (fun error result => _handleMethodResult id fullMethodName error result)
      (method params).
Proof.
  intros Hsplit Hp.
  apply (handleCommand_resolved _
           [("id", id); ("method", VStr fullMethodName); ("params", params)]
           fullMethodName (DebuggerAgent convert js) method eq_refl).
  - rewrite (initial_registry_no_override convert js RuntimeAgent PageAgent
               fullMethodName (DebuggerAgent convert js)); [done|].
    by rewrite Hsplit.
  - by rewrite Hsplit.
  - by rewrite Hsplit.
Qed.

Ltac dispatch fullMethodName methodName method :=
  rewrite (dispatch_to_DebuggerAgent _ _ _ _ _ fullMethodName methodName method _
             eq_refl eq_refl).

(** C2 (as amended).  For pause and for resume, stepOver, stepInto and
    stepOut, when the backend request succeeds the response of the command is
    sent first and the notification (the pause notification, or
    'Debugger.resumed') strictly after it. *)
Theorem C2_response_before_notification
    convert js RuntimeAgent PageAgent id params err response
    fullMethodName request notification :
  In (fullMethodName, request, notification) pause_and_resume_commands ->
  truthy id = true ->
  truthy err = false ->
  let t := trace (run (_initializeRegistry convert js RuntimeAgent PageAgent)
                    [Frontend (command id fullMethodName params);
                     Backend (Reply 0 err response)] initial) in
  t = [Called request; Got (Reply 0 err response);
       Did (SendResponse id err VUndefined); Did notification]
  /\ precedes (Did (SendResponse id err VUndefined)) (Did notification) t.
Proof.
  intros Hin Hid Herr t.
  assert (Ht : t = [Called request; Got (Reply 0 err response);
                    Did (SendResponse id err VUndefined); Did notification]).
  { unfold t, run. cbn [fold_left step].
    simpl in Hin.
    destruct Hin as [Hin|[Hin|[Hin|[Hin|[Hin|[]]]]]];
      injection Hin as <- <- <-.
    - dispatch "Debugger.pause" "pause" pause.
      cbn -[truthy]. unfold _handleMethodResult. by rewrite Hid, Herr.
    - dispatch "Debugger.resume" "resume" resume.
      cbn -[truthy]. unfold _handleMethodResult. by rewrite Hid, Herr.
    - dispatch "Debugger.stepOver" "stepOver" stepOver.
      cbn -[truthy]. unfold _handleMethodResult. by rewrite Hid, Herr.
    - dispatch "Debugger.stepInto" "stepInto" stepInto.
      cbn -[truthy]. unfold _handleMethodResult. by rewrite Hid, Herr.
    - dispatch "Debugger.stepOut" "stepOut" stepOut.
      cbn -[truthy]. unfold _handleMethodResult. by rewrite Hid, Herr. }
  split; [done|].
  rewrite Ht. exists 2%nat, 3%nat. repeat split. lia.
Qed.

Lemma C2_response_before_notification_witness :
  let t := trace (run example_handler
                    [Frontend (command (VNum 7) "Debugger.pause" VUndefined);
                     Backend (Reply 0 VNull VUndefined)] initial) in
  t = [Called (Request "suspend" (VObj [])); Got (Reply 0 VNull VUndefined);
       Did (SendResponse (VNum 7) VNull VUndefined);
       Did (SendBacktraceToFrontend VNull)]
  /\ precedes (Did (SendResponse (VNum 7) VNull VUndefined))
              (Did (SendBacktraceToFrontend VNull)) t.
Proof.
  apply (C2_response_before_notification example_convert example_js ∅ ∅
           (VNum 7) VUndefined VNull VUndefined
           "Debugger.pause" (Request "suspend" (VObj []))
           (SendBacktraceToFrontend VNull)).
  - simpl. left. reflexivity.
  - reflexivity.
  - reflexivity.
Defined.

(** C2 does not hold as written, on its own scenario: after
    [{id: 7, method: "Debugger.pause"}] and a successful suspend, the pause
    notification does not come before the response. *)
Lemma C2_counterexample_pause :
  ~ precedes (Did (SendBacktraceToFrontend VNull))
             (Did (SendResponse (VNum 7) VNull VUndefined))
             (trace (run example_handler
                       [Frontend (command (VNum 7) "Debugger.pause" VUndefined);
                        Backend (Reply 0 VNull VUndefined)] initial)).
Proof.
  intros (i & j & Hlt & Hi & Hj).
  change (trace _) with
    [Called (Request "suspend" (VObj [])); Got (Reply 0 VNull VUndefined);
     Did (SendResponse (VNum 7) VNull VUndefined);
     Did (SendBacktraceToFrontend VNull)] in Hi, Hj.
  destruct i as [|[|[|[|i]]]]; try discriminate Hi.
  destruct j as [|[|[|[|j]]]]; try discriminate Hj. lia.
Qed.

(** ** The connect-time bootstrap *)

Lemma reactions_app s1 s2 w :
  reactions (s1 ++ s2) w = reactions s2 (reactions s1 w).
Proof. apply fold_left_app. Qed.

Lemma run_backend this stimuli w :
  run this (Backend <$> stimuli) w = reactions stimuli w.
Proof.
  revert w. induction stimuli as [|s stimuli IH]; intros w; simpl; [done|].
  apply IH.
Qed.

Lemma run_frontend this message stimuli :
  run this (Frontend message :: (Backend <$> stimuli)) initial
  = reactions stimuli (step this (Frontend message) initial).
Proof. apply run_backend. Qed.

Lemma record_all_nil w : record_all [] w = w.
Proof. destruct w. unfold record_all; simpl. by rewrite app_nil_r. Qed.

Lemma record_all_app es1 es2 w :
  record_all es2 (record_all es1 w) = record_all (es1 ++ es2) w.
Proof. unfold record_all; simpl. by rewrite app_assoc. Qed.

Lemma reactions_cons s stimuli w :
  reactions (s :: stimuli) w = reactions stimuli (react s w).
Proof. reflexivity. Qed.

Lemma clear_step bp rest callback error response w :
  outstanding w = [] ->
  react (Reply 0 error response)
    (exec (iterate (VObj bp :: rest) removeOneBreakpoint callback) w)
  = exec (iterate rest removeOneBreakpoint callback)
      (record_all
         ([Called (ClearBreakpoint (assoc "number" bp)); Got (Reply 0 error response)]
          ++ (if truthy error
              then [Did (Log [VStr "Warning: cannot remove old breakpoint %d. %s";
                              assoc "number" bp; error])]
              else []))
         w).
Proof.
  intros Ho. destruct w as [ls out cb running t]. simpl in Ho. subst out.
  unfold react. simpl.
  destruct (truthy error); simpl; f_equal;
    unfold record_all, set_outstanding, record; simpl; f_equal;
    by rewrite <- !app_assoc.
Qed.

(** The series of clears: each request is made from the callback of the one
    before, and an error is logged and passed over. *)
Lemma clear_series bps replies callback w :
  outstanding w = [] ->
  length replies = length bps ->
  reactions (answers replies)
    (exec (iterate (VObj <$> bps) removeOneBreakpoint callback) w)
  = exec (invoke callback VUndefined)
      (record_all (clearing (assoc "number" <$> bps) replies) w).
Proof.
  revert replies w.
  induction bps as [|bp bps IH]; intros [|[error response] replies] w Ho Hlen;
    try discriminate Hlen.
  - simpl. by rewrite record_all_nil.
  - simpl in Hlen. injection Hlen as Hlen.
    change (answers ((error, response) :: replies))
      with (Reply 0 error response :: answers replies).
    rewrite reactions_cons, fmap_cons, clear_step by done.
    rewrite IH by done.
    rewrite record_all_app. repeat f_equal; simpl; by rewrite <- ?app_assoc.
Qed.

Lemma removeAllBreakpoints_run done err body bps replies w :
  outstanding w = [] ->
  truthy err = false ->
  assoc "breakpoints" body = VArr (VObj <$> bps) ->
  length replies = length bps ->
  reactions (Reply 0 err (VObj body) :: answers replies)
    (exec (_removeAllBreakpoints (Fn done)) w)
  = exec (done VUndefined)
      (record_all
         ([Called (Request "listbreakpoints" (VObj []));
           Got (Reply 0 err (VObj body))]
          ++ clearing (assoc "number" <$> bps) replies)
         w).
Proof.
  intros Ho Herr Hbody Hlen.
  assert (Hfirst :
    react (Reply 0 err (VObj body)) (exec (_removeAllBreakpoints (Fn done)) w)
    = exec (iterate (VObj <$> bps) removeOneBreakpoint (Fn done))
        (record_all [Called (Request "listbreakpoints" (VObj []));
                     Got (Reply 0 err (VObj body))] w)).
  { destruct w as [ls out cb running t]. simpl in Ho. subst out.
    unfold react. simpl. rewrite Herr, Hbody. simpl.
    unfold eachSeries, or_noop. f_equal.
    unfold record_all, set_outstanding, record; simpl. f_equal.
    by rewrite <- app_assoc. }
  rewrite reactions_cons, Hfirst, clear_series by done.
  by rewrite record_all_app.
Qed.

(** From 'connect' to the end of the clears: the waterfall is about to
    reload the scripts. *)
Lemma bootstrap_clears params b err body bps replies :
  truthy err = false ->
  assoc "breakpoints" body = VArr (VObj <$> bps) ->
  length replies = length bps ->
  reactions ([Running b; Connected; Reply 0 err (VObj body)] ++ answers replies)
    (exec (enable params) initial)
  = exec (waterfall [_reloadScripts; _sendBacktraceIfPaused])
      (record_all
         ([Called (Request "listbreakpoints" (VObj []));
           Got (Reply 0 err (VObj body))]
          ++ clearing (assoc "number" <$> bps) replies)
         (connected b)).
Proof.
  intros Herr Hbody Hlen.
  change ([Running b; Connected; Reply 0 err (VObj body)] ++ answers replies)
    with (Running b :: Connected :: Reply 0 err (VObj body) :: answers replies).
  rewrite !reactions_cons.
  change (react Connected (react (Running b) (exec (enable params) initial)))
    with (exec (_removeAllBreakpoints
                  (Fn (fun err => if truthy err then Ret
                                  else waterfall [_reloadScripts;
                                                  _sendBacktraceIfPaused])))
               (connected b)).
  rewrite <- reactions_cons.
  by rewrite (removeAllBreakpoints_run _ err body bps replies).
Qed.

Lemma _handleMethodResult_calls requestId fullMethodName error result :
  _handleMethodResult requestId fullMethodName error result
  = outs (method_result_calls requestId error result).
Proof.
  unfold _handleMethodResult, method_result_calls.
  by destruct (truthy requestId).
Qed.

(** A command for the debugger agent, followed turn after turn. *)
Lemma dispatch_Debugger convert js RuntimeAgent PageAgent
    id fullMethodName methodName method params stimuli :
  split "." fullMethodName = ["Debugger"; methodName] ->
  DebuggerAgent convert js !! methodName = Some (PFun method) ->
  run (_initializeRegistry convert js RuntimeAgent PageAgent)
      (Frontend (command id fullMethodName params) :: (Backend <$> stimuli))
      initial
  = bind_world
      (fun error result => _handleMethodResult id fullMethodName error result)
      (method_result_calls id)
      (reactions stimuli (exec (method params) initial)).
Proof.
  intros Hsplit Hp. rewrite run_frontend.
  apply (dispatch_resolved _
           [("id", id); ("method", VStr fullMethodName); ("params", params)]
           fullMethodName (DebuggerAgent convert js) method
           (method_result_calls id) stimuli eq_refl).
  - rewrite (initial_registry_no_override convert js RuntimeAgent PageAgent
               fullMethodName (DebuggerAgent convert js)); [done|].
    by rewrite Hsplit.
  - by rewrite Hsplit.
  - by rewrite Hsplit.
  - intros error result. apply _handleMethodResult_calls.
Qed.

Lemma dispatch_Debugger_trace convert js RuntimeAgent PageAgent
    id fullMethodName methodName method params stimuli :
  split "." fullMethodName = ["Debugger"; methodName] ->
  DebuggerAgent convert js !! methodName = Some (PFun method) ->
  trace (run (_initializeRegistry convert js RuntimeAgent PageAgent)
           (Frontend (command id fullMethodName params) :: (Backend <$> stimuli))
           initial)
  = expand (method_result_calls id)
      (trace (reactions stimuli (exec (method params) initial))).
Proof.
  intros Hsplit Hp.
  by rewrite (dispatch_Debugger convert js RuntimeAgent PageAgent id
                fullMethodName methodName method params stimuli Hsplit Hp).
Qed.

Lemma expand_clearing f numbers replies :
  expand f (clearing numbers replies) = clearing numbers replies.
Proof.
  revert replies. induction numbers as [|n numbers IH]; intros [|[e r] replies];
    try done.
  simpl. rewrite !expand_app, IH.
  by destruct (truthy e).
Qed.

Lemma clear_requests_app t1 t2 :
  clear_requests (t1 ++ t2) = clear_requests t1 ++ clear_requests t2.
Proof. apply omap_app. Qed.

Lemma clear_requests_clearing numbers replies :
  length replies = length numbers ->
  clear_requests (clearing numbers replies) = numbers.
Proof.
  revert replies. induction numbers as [|n numbers IH]; intros [|[e r] replies] Hlen;
    try discriminate Hlen; [done|].
  simpl in Hlen. injection Hlen as Hlen.
  simpl. rewrite clear_requests_app, IH by done.
  by destruct (truthy e).
Qed.

Lemma responses_app t1 t2 : responses (t1 ++ t2) = responses t1 ++ responses t2.
Proof. apply omap_app. Qed.

Lemma responses_clearing numbers replies : responses (clearing numbers replies) = [].
Proof.
  revert replies. induction numbers as [|n numbers IH]; intros [|[e r] replies];
    try done.
  simpl. rewrite responses_app, IH.
  by destruct (truthy e).
Qed.

(** C7.  When the list request at enable time reports N breakpoints, the
    bootstrap makes exactly N clear requests, for those breakpoints and in
    their order, each one only after the answer to the one before; a failed
    clear is logged and the series goes on; the script list request comes
    after the last answer. *)
Theorem C7_serial_clears_before_scripts
    convert js RuntimeAgent PageAgent id params b err body bps replies :
  truthy err = false ->
  assoc "breakpoints" body = VArr (VObj <$> bps) ->
  length replies = length bps ->
  let t := trace (run (_initializeRegistry convert js RuntimeAgent PageAgent)
                    (Frontend (command id "Debugger.enable" params)
                     :: (Backend <$> [Running b; Connected; Reply 0 err (VObj body)]
                                     ++ answers replies))
                    initial) in
  t = [Did Connect; Got (Running b); Got Connected]
      ++ (Did <$> method_result_calls id VUndefined VUndefined)
      ++ [Called (Request "listbreakpoints" (VObj []));
          Got (Reply 0 err (VObj body))]
      ++ clearing (assoc "number" <$> bps) replies
      ++ [Did ScriptReset; Called scripts_request]
  /\ clear_requests t = assoc "number" <$> bps
  /\ length (clear_requests t) = length bps.
Proof.
  intros Herr Hbody Hlen t.
  assert (Ht : t = [Did Connect; Got (Running b); Got Connected]
      ++ (Did <$> method_result_calls id VUndefined VUndefined)
      ++ [Called (Request "listbreakpoints" (VObj []));
          Got (Reply 0 err (VObj body))]
      ++ clearing (assoc "number" <$> bps) replies
      ++ [Did ScriptReset; Called scripts_request]).
  { unfold t.
    rewrite (dispatch_Debugger_trace convert js RuntimeAgent PageAgent id
               "Debugger.enable" "enable" enable params _ eq_refl eq_refl).
    rewrite (bootstrap_clears params b err body bps replies Herr Hbody Hlen).
    simpl. rewrite !expand_app, expand_clearing. simpl.
    by rewrite <- !app_assoc. }
  assert (Hc : clear_requests t = assoc "number" <$> bps).
  { rewrite Ht. rewrite !clear_requests_app.
    rewrite clear_requests_clearing by by rewrite length_fmap.
    unfold method_result_calls. destruct (truthy id); simpl; by rewrite app_nil_r. }
  split; [done|]. split; [done|].
  by rewrite Hc, length_fmap.
Qed.

Lemma C7_serial_clears_before_scripts_witness :
  let t := trace (run example_handler
                    (Frontend (command (VNum 1) "Debugger.enable" VUndefined)
                     :: (Backend <$>
                           [Running true; Connected;
                            Reply 0 VNull
                              (VObj [("breakpoints",
                                      VArr [VObj [("number", VNum 3)];
                                            VObj [("number", VNum 5)]])])]
                           ++ answers [(VStr "gone", VUndefined); (VNull, VUndefined)]))
                    initial) in
  t = [Did Connect; Got (Running true); Got Connected;
       Did (SendResponse (VNum 1) VUndefined VUndefined);
       Called (Request "listbreakpoints" (VObj []));
       Got (Reply 0 VNull
              (VObj [("breakpoints",
                      VArr [VObj [("number", VNum 3)]; VObj [("number", VNum 5)]])]));
       Called (ClearBreakpoint (VNum 3));
       Got (Reply 0 (VStr "gone") VUndefined);
       Did (Log [VStr "Warning: cannot remove old breakpoint %d. %s";
                 VNum 3; VStr "gone"]);
       Called (ClearBreakpoint (VNum 5));
       Got (Reply 0 VNull VUndefined);
       Did ScriptReset; Called scripts_request]
  /\ clear_requests t = [VNum 3; VNum 5]
  /\ length (clear_requests t) = 2%nat.
Proof.
  exact (C7_serial_clears_before_scripts example_convert example_js ∅ ∅
           (VNum 1) VUndefined true VNull
           [("breakpoints",
             VArr [VObj [("number", VNum 3)]; VObj [("number", VNum 5)]])]
           [[("number", VNum 3)]; [("number", VNum 5)]]
           [(VStr "gone", VUndefined); (VNull, VUndefined)]
           eq_refl eq_refl eq_refl).
Defined.

(** After the clears a failing script list request ends the bootstrap. *)
Lemma bootstrap_scripts_failure params b err body bps replies scriptsError scriptsResult :
  truthy err = false ->
  assoc "breakpoints" body = VArr (VObj <$> bps) ->
  length replies = length bps ->
  truthy scriptsError = true ->
  reactions ([Running b; Connected; Reply 0 err (VObj body)] ++ answers replies
             ++ [Reply 0 scriptsError scriptsResult])
    (exec (enable params) initial)
  = record_all
      ([Called (Request "listbreakpoints" (VObj []));
        Got (Reply 0 err (VObj body))]
       ++ clearing (assoc "number" <$> bps) replies
       ++ [Did ScriptReset; Called scripts_request;
           Got (Reply 0 scriptsError scriptsResult)])
      (connected b).
Proof.
  intros Herr Hbody Hlen Hs.
  rewrite app_assoc, reactions_app.
  rewrite (bootstrap_clears params b err body bps replies Herr Hbody Hlen).
  simpl. unfold react. simpl. rewrite Hs. simpl.
  unfold record_all, set_outstanding, record, connected; simpl. f_equal.
  by rewrite <- !app_assoc.
Qed.

(** C3 (as amended).  A failure of the script list request in step 2 ends
    the bootstrap: nothing follows it, step 3 does not run even when the
    backend is paused, and nothing is left outstanding.  It is not propagated
    to the enable call, whose only response is the success sent on 'connect',
    before the bootstrap began. *)
Theorem C3_scripts_failure_ends_bootstrap
    convert js RuntimeAgent PageAgent id params b err body bps replies
    scriptsError scriptsResult :
  truthy id = true ->
  truthy err = false ->
  assoc "breakpoints" body = VArr (VObj <$> bps) ->
  length replies = length bps ->
  truthy scriptsError = true ->
  let w := run (_initializeRegistry convert js RuntimeAgent PageAgent)
             (Frontend (command id "Debugger.enable" params)
              :: (Backend <$> [Running b; Connected; Reply 0 err (VObj body)]
                              ++ answers replies
                              ++ [Reply 0 scriptsError scriptsResult]))
             initial in
  trace w
  = [Did Connect; Got (Running b); Got Connected;
     Did (SendResponse id VUndefined VUndefined);
     Called (Request "listbreakpoints" (VObj []));
     Got (Reply 0 err (VObj body))]
    ++ clearing (assoc "number" <$> bps) replies
    ++ [Did ScriptReset; Called scripts_request;
        Got (Reply 0 scriptsError scriptsResult)]
  /\ responses (trace w) = [(id, VUndefined, VUndefined)]
  /\ outstanding w = [].
Proof.
  intros Hid Herr Hbody Hlen Hs w.
  assert (Hw : w = bind_world
                     (fun error result =>
                        _handleMethodResult id "Debugger.enable" error result)
                     (method_result_calls id)
                     (record_all
                        ([Called (Request "listbreakpoints" (VObj []));
                          Got (Reply 0 err (VObj body))]
                         ++ clearing (assoc "number" <$> bps) replies
                         ++ [Did ScriptReset; Called scripts_request;
                             Got (Reply 0 scriptsError scriptsResult)])
                        (connected b))).
  { unfold w.
    rewrite (dispatch_Debugger convert js RuntimeAgent PageAgent id
               "Debugger.enable" "enable" enable params _ eq_refl eq_refl).
    by rewrite (bootstrap_scripts_failure params b err body bps replies
                  scriptsError scriptsResult Herr Hbody Hlen Hs). }
  assert (Ht : trace w
    = [Did Connect; Got (Running b); Got Connected;
       Did (SendResponse id VUndefined VUndefined);
       Called (Request "listbreakpoints" (VObj []));
       Got (Reply 0 err (VObj body))]
      ++ clearing (assoc "number" <$> bps) replies
      ++ [Did ScriptReset; Called scripts_request;
          Got (Reply 0 scriptsError scriptsResult)]).
  { rewrite Hw. simpl. rewrite !expand_app, expand_clearing. simpl.
    unfold method_result_calls. rewrite Hid. simpl.
    by rewrite <- ?app_assoc. }
  split; [done|]. split.
  - rewrite Ht, !responses_app, responses_clearing. done.
  - by rewrite Hw.
Qed.

Lemma C3_scripts_failure_ends_bootstrap_witness :
  let w := run example_handler
             (Frontend (command (VNum 1) "Debugger.enable" VUndefined)
              :: (Backend <$> [Running false; Connected;
                               Reply 0 VNull (VObj [("breakpoints", VArr [])])]
                              ++ answers []
                              ++ [Reply 0 (VStr "scripts failed") VUndefined]))
             initial in
  trace w
  = [Did Connect; Got (Running false); Got Connected;
     Did (SendResponse (VNum 1) VUndefined VUndefined);
     Called (Request "listbreakpoints" (VObj []));
     Got (Reply 0 VNull (VObj [("breakpoints", VArr [])]));
     Did ScriptReset; Called scripts_request;
     Got (Reply 0 (VStr "scripts failed") VUndefined)]
  /\ responses (trace w) = [(VNum 1, VUndefined, VUndefined)]
  /\ outstanding w = [].
Proof.
  exact (C3_scripts_failure_ends_bootstrap example_convert example_js ∅ ∅
           (VNum 1) VUndefined false VNull [("breakpoints", VArr [])] [] []
           (VStr "scripts failed") VUndefined
           eq_refl eq_refl eq_refl eq_refl eq_refl).
Defined.

(** C3 does not hold as written: with no breakpoint to clear and the
    script list request failing with "scripts failed", no response to the
    enable call carries that error. *)
Lemma C3_counterexample_scripts_failure :
  ~ exists result,
      (VNum 1, VStr "scripts failed", result)
      ∈ responses
          (trace (run example_handler
                    [Frontend (command (VNum 1) "Debugger.enable" VUndefined);
                     Backend Connected;
                     Backend (Reply 0 VNull (VObj [("breakpoints", VArr [])]));
                     Backend (Reply 0 (VStr "scripts failed") VUndefined)]
                    initial)).
Proof.
  intros [result Hin].
  change (responses _) with [(VNum 1, VUndefined, VUndefined)] in Hin.
  apply list_elem_of_singleton in Hin. discriminate Hin.
Qed.

(** ** The 'connect' listener of enable *)

Lemma expand_concat_replicate f n t :
  expand f (concat (replicate n t)) = concat (replicate n (expand f t)).
Proof.
  induction n as [|n IH]; simpl; [done|].
  by rewrite expand_app, IH.
Qed.

(** The listener stays registered: every 'connect' completes the call and
    starts a bootstrap. *)
Lemma connects_alone n w :
  listeners w = [Done VUndefined VUndefined _onDebuggerConnect] ->
  trace (reactions (replicate n Connected) w)
  = trace w
    ++ concat (replicate n [Got Connected; Completed VUndefined VUndefined;
                            Called (Request "listbreakpoints" (VObj []))]).
Proof.
  revert w. induction n as [|n IH]; intros w Hl; simpl.
  - by rewrite app_nil_r.
  - rewrite IH.
    + unfold react. rewrite Hl. simpl. by rewrite <- !app_assoc.
    + unfold react. rewrite Hl. simpl. by rewrite Hl.
Qed.

(** C8 (as amended).  An enable call registers a listener that stays
    registered: its completion callback and its bootstrap are triggered by
    the first 'connect' after the call and again by every later one, so that
    after n notifications the call has been answered n times and n
    bootstraps have begun. *)
Theorem C8_every_connect_triggers convert js RuntimeAgent PageAgent id params n :
  truthy id = true ->
  let t := trace (run (_initializeRegistry convert js RuntimeAgent PageAgent)
                    (Frontend (command id "Debugger.enable" params)
                     :: (Backend <$> replicate n Connected))
                    initial) in
  t = Did Connect
      :: concat (replicate n [Got Connected;
                              Did (SendResponse id VUndefined VUndefined);
                              Called (Request "listbreakpoints" (VObj []))])
  /\ responses t = replicate n (id, VUndefined, VUndefined).
Proof.
  intros Hid t.
  assert (Ht : t = Did Connect
      :: concat (replicate n [Got Connected;
                              Did (SendResponse id VUndefined VUndefined);
                              Called (Request "listbreakpoints" (VObj []))])).
  { unfold t.
    rewrite (dispatch_Debugger_trace convert js RuntimeAgent PageAgent id
               "Debugger.enable" "enable" enable params _ eq_refl eq_refl).
    rewrite connects_alone by done. simpl.
    rewrite expand_concat_replicate. simpl.
    unfold method_result_calls. by rewrite Hid. }
  split; [done|]. rewrite Ht. clear.
  induction n as [|n IH]; simpl; [done|]. simpl in IH. by rewrite IH.
Qed.

Lemma C8_every_connect_triggers_witness :
  let t := trace (run example_handler
                    (Frontend (command (VNum 1) "Debugger.enable" VUndefined)
                     :: (Backend <$> replicate 2 Connected))
                    initial) in
  t = [Did Connect;
       Got Connected; Did (SendResponse (VNum 1) VUndefined VUndefined);
       Called (Request "listbreakpoints" (VObj []));
       Got Connected; Did (SendResponse (VNum 1) VUndefined VUndefined);
       Called (Request "listbreakpoints" (VObj []))]
  /\ responses t = [(VNum 1, VUndefined, VUndefined); (VNum 1, VUndefined, VUndefined)].
Proof.
  exact (C8_every_connect_triggers example_convert example_js ∅ ∅
           (VNum 1) VUndefined 2 eq_refl).
Defined.

(** C8 does not hold as written: a second 'connect' after one enable call
    answers the call a second time and starts a second bootstrap. *)
Lemma C8_counterexample_second_connect :
  trace (run example_handler
           [Frontend (command (VNum 1) "Debugger.enable" VUndefined);
            Backend Connected; Backend Connected] initial)
  = [Did Connect;
     Got Connected; Did (SendResponse (VNum 1) VUndefined VUndefined);
     Called (Request "listbreakpoints" (VObj []));
     Got Connected; Did (SendResponse (VNum 1) VUndefined VUndefined);
     Called (Request "listbreakpoints" (VObj []))].
Proof. reflexivity. Qed.

(** ** evaluateOnCallFrame *)

(** C6 (as amended).  evaluateOnCallFrame never completes with a call
    error: whatever error the backend request reports, a transport failure
    and a thrown expression alike, becomes a success result that wraps the
    converted error with the thrown flag set; without an error the result is
    the converted value with the flag unset. *)
Theorem C6_evaluate_errors_become_results
    convert js RuntimeAgent PageAgent id fields err result :
  truthy id = true ->
  let t := trace (run (_initializeRegistry convert js RuntimeAgent PageAgent)
                    [Frontend (command id "Debugger.evaluateOnCallFrame" (VObj fields));
                     Backend (Reply 0 err result)] initial) in
  (exists value,
     t = [Called (Request "evaluate"
                    (VObj [("expression", assoc "expression" fields);
                           ("frame", Number js (assoc "callFrameId" fields))]));
          Got (Reply 0 err result);
          Did (SendResponse id VNull value)])
  /\ (truthy err = true ->
      truthy (v8ErrorToInspectorError convert err) = true ->
      responses t
      = [(id, VNull,
          VObj [("result", v8ErrorToInspectorError convert err);
                ("wasThrown", VBool true)])])
  /\ (truthy err = false ->
      responses t
      = [(id, VNull,
          VObj [("result", v8ResultToInspectorResult convert result);
                ("wasThrown", VBool false)])]).
Proof.
  intros Hid t.
  assert (Ht : t = [Called (Request "evaluate"
                    (VObj [("expression", assoc "expression" fields);
                           ("frame", Number js (assoc "callFrameId" fields))]));
          Got (Reply 0 err result);
          Did (SendResponse id VNull
                 (VObj [("result",
                         if truthy (if truthy err
                                    then v8ErrorToInspectorError convert err
                                    else err)
                         then (if truthy err
                               then v8ErrorToInspectorError convert err
                               else err)
                         else v8ResultToInspectorResult convert result);
                        ("wasThrown",
                         VBool (truthy (if truthy err
                                        then v8ErrorToInspectorError convert err
                                        else err)))]))]).
  { unfold t, run. cbn [fold_left step].
    dispatch "Debugger.evaluateOnCallFrame" "evaluateOnCallFrame"
             (evaluateOnCallFrame convert js).
    cbn -[truthy]. unfold _handleMethodResult. by rewrite Hid. }
  split; [by eexists|]. split.
  - intros Herr Hconv. rewrite Ht, Herr, Hconv. reflexivity.
  - intros Herr. rewrite Ht, Herr, Herr. reflexivity.
Qed.

Lemma C6_evaluate_errors_become_results_witness :
  responses
    (trace (run example_handler
              [Frontend (command (VNum 5) "Debugger.evaluateOnCallFrame"
                           (VObj [("expression", VStr "x.y");
                                  ("callFrameId", VStr "0")]));
               Backend (Reply 0 (VStr "ECONNRESET") VUndefined)] initial))
  = [(VNum 5, VNull,
      VObj [("result", VObj [("type", VStr "object");
                             ("description", VStr "ECONNRESET")]);
            ("wasThrown", VBool true)])].
Proof.
  destruct (C6_evaluate_errors_become_results example_convert example_js ∅ ∅
              (VNum 5)
              [("expression", VStr "x.y"); ("callFrameId", VStr "0")]
              (VStr "ECONNRESET") VUndefined eq_refl) as (_ & H & _).
  exact (H eq_refl eq_refl).
Defined.

(** C6 does not hold as written: when the evaluate request fails with
    "ECONNRESET", the response carries no error; the message comes back
    inside a success result. *)
Lemma C6_counterexample_transport_failure :
  ~ exists result,
      (VNum 5, VStr "ECONNRESET", result)
      ∈ responses
          (trace (run example_handler
                    [Frontend (command (VNum 5) "Debugger.evaluateOnCallFrame"
                                 (VObj [("expression", VStr "x.y");
                                        ("callFrameId", VStr "0")]));
                     Backend (Reply 0 (VStr "ECONNRESET") VUndefined)] initial)).
Proof.
  intros [result Hin].
  change (responses _) with
    [(VNum 5, VNull,
      VObj [("result", VObj [("type", VStr "object");
                             ("description", VStr "ECONNRESET")]);
            ("wasThrown", VBool true)])] in Hin.
  apply list_elem_of_singleton in Hin. discriminate Hin.
Qed.

(** ** setScriptSource *)





(** ** Further runs *)

(** When the list request itself fails, the bootstrap logs a warning, makes
    no clear request and goes on to the script list. *)
Example list_failure_skips_clears :
  trace (run example_handler
           [Frontend (command (VNum 1) "Debugger.enable" VUndefined);
            Backend Connected;
            Backend (Reply 0 (VStr "no connection") VUndefined)] initial)
  = [Did Connect; Got Connected;
     Did (SendResponse (VNum 1) VUndefined VUndefined);
     Called (Request "listbreakpoints" (VObj []));
     Got (Reply 0 (VStr "no connection") VUndefined);
     Did (Log [VStr "Warning: cannot remove old breakpoints. %s";
               VStr "no connection"]);
     Did ScriptReset; Called scripts_request].
Proof. reflexivity. Qed.

(** The continue request of the live-edit workaround names its argument
    [stepAction]; the one of stepInto names it [stepaction]. *)
Example stepInto_arguments :
  trace (run example_handler
           [Frontend (command (VNum 2) "Debugger.stepInto" VUndefined)] initial)
  = [Called (Request "continue" (VObj [("stepaction", VStr "in")]))].
Proof. reflexivity. Qed.

Example setScriptSource_step_in_arguments :
  trace (run example_handler
           [Frontend (command (VNum 4) "Debugger.setScriptSource"
                        (VObj [("scriptId", VStr "12"); ("scriptSource", VStr "x = 1")]));
            Backend (Reply 0 VNull
                       (VObj [("result",
                               VObj [("stack_update_needs_step_in", VBool true)])]))]
           initial)
  = [Called (changelive_request example_convert
               [("scriptId", VStr "12"); ("scriptSource", VStr "x = 1")]);
     Got (Reply 0 VNull
            (VObj [("result", VObj [("stack_update_needs_step_in", VBool true)])]));
     Called (Request "continue" (VObj [("stepAction", VStr "in")]))].
Proof. reflexivity. Qed.

(** After a failed step-into the next-pause callback stays armed: a later
    pause completes the same command a second time. *)
Example setScriptSource_responds_again_on_pause :
  responses
    (trace (run example_handler
              [Frontend (command (VNum 4) "Debugger.setScriptSource"
                           (VObj [("scriptId", VStr "12");
                                  ("scriptSource", VStr "x = 1")]));
               Backend (Reply 0 VNull
                          (VObj [("result",
                                  VObj [("stack_update_needs_step_in", VBool true)])]));
               Backend (Reply 0 (VStr "not paused") VUndefined);
               Backend (Reply 0 VNull (VArr [VStr "frame"]));
               Backend (Break VUndefined);
               Backend (Reply 0 VNull (VArr []))]
              initial))
  = [(VNum 4, VNull,
      VObj [("callFrames", VArr [VStr "frame"]);
            ("result", VObj [("stack_update_needs_step_in", VBool true)])]);
     (VNum 4, VNull,
      VObj [("callFrames", VArr []);
            ("result", VObj [("stack_update_needs_step_in", VBool true)])])].
Proof. reflexivity. Qed.

(** A helper that takes [done] first, reached from outside, finds the
    command's params where it expects a function. *)
Example dispatch_reloadScripts :
  trace (run example_handler
           [Frontend (command (VNum 6) "Debugger._reloadScripts" (VObj []));
            Backend (Reply 0 VNull (VArr []))] initial)
  = [Did ScriptReset; Called scripts_request;
     Got (Reply 0 VNull (VArr [])); Uncaught "TypeError"].
Proof. reflexivity. Qed.

(** * More of the dispatcher *)

(** [handleCommand] throws for every message whose method is not a string:
    null, a message that is no object, an object without a method, and a
    method that is a number, a boolean, null, an array or an object.  The
    turn ends there. *)
Theorem handleCommand_throws_unless_method_is_string this message w :
  (forall fullMethodName, field "method" message <> VStr fullMethodName) ->
  handleCommand this message = Throw "TypeError"
  /\ step this (Frontend message) w = record (Uncaught "TypeError") w.
Proof.
  intros Hm.
  assert (H : handleCommand this message = Throw "TypeError").
  { unfold handleCommand. destruct message as [| | | | |items|fields]; simpl; try done.
    simpl in Hm. destruct (assoc "method" fields) eqn:E; try done.
    by destruct (Hm s). }
  split; [done|]. unfold step. by rewrite H.
Qed.

Lemma handleCommand_throws_unless_method_is_string_witness :
  handleCommand example_handler (VObj [("id", VNum 1); ("method", VNum 5)])
  = Throw "TypeError"
  /\ step example_handler (Frontend (VObj [("id", VNum 1); ("method", VNum 5)])) initial
     = record (Uncaught "TypeError") initial.
Proof.
  apply (handleCommand_throws_unless_method_is_string example_handler
           (VObj [("id", VNum 1); ("method", VNum 5)]) initial).
  intros fullMethodName. simpl. discriminate.
Defined.

(** A query registered for a name answers every command of that name with
    the registered result, once and with nothing else, whatever agents the
    handler holds or is given afterwards: the override is looked up first. *)
Theorem registered_query_wins this fullMethodName result id params stimuli :
  truthy id = true ->
  trace (reactions stimuli
           (step (_registerQuery fullMethodName result this)
                 (Frontend (command id fullMethodName params)) initial))
  = Did (SendResponse id VNull result) :: (Got <$> stimuli)
  /\ (forall domainName agent,
        trace (reactions stimuli
                 (step (_registerAgent domainName agent
                          (_registerQuery fullMethodName result this))
                       (Frontend (command id fullMethodName params)) initial))
        = Did (SendResponse id VNull result) :: (Got <$> stimuli)).
Proof.
  intros Hid.
  assert (H : forall this',
    _specialCommands this' !! fullMethodName = Some (VObj [("result", result)]) ->
    trace (reactions stimuli
             (step this' (Frontend (command id fullMethodName params)) initial))
    = Did (SendResponse id VNull result) :: (Got <$> stimuli)).
  { intros this' Hs. unfold step, command.
    rewrite (handleCommand_special this'
               [("id", id); ("method", VStr fullMethodName); ("params", params)]
               fullMethodName eq_refl)
      by by rewrite Hs.
    rewrite Hs. simpl. rewrite (_handleMethodResult_with_id _ _ _ _ Hid). simpl.
    by rewrite reactions_quiet. }
  split.
  - apply H. simpl. apply lookup_insert_eq.
  - intros domainName agent. apply H. simpl. apply lookup_insert_eq.
Qed.

Lemma registered_query_wins_witness :
  trace (reactions [Connected]
           (step (_registerQuery "Debugger.pause" (VStr "stub") example_handler)
                 (Frontend (command (VNum 2) "Debugger.pause" VUndefined)) initial))
  = [Did (SendResponse (VNum 2) VNull (VStr "stub")); Got Connected].
Proof.
  exact (proj1 (registered_query_wins example_handler "Debugger.pause" (VStr "stub")
                  (VNum 2) VUndefined [Connected] eq_refl)).
Defined.

Lemma lookup_registered_noops (names : list string) (specials : gmap string value)
    (name : string) :
  In name names \/ specials !! name = Some (VObj []) ->
  fold_left (fun specials fullMethodName => <[fullMethodName := VObj []]> specials)
            names specials !! name = Some (VObj []).
Proof.
  revert specials. induction names as [|n names IH]; intros specials Hin; simpl.
  - by destruct Hin.
  - apply IH. destruct Hin as [[->|Hin]|Hs].
    + right. apply lookup_insert_eq.
    + by left.
    + right. destruct (decide (n = name)) as [->|Hne].
      * apply lookup_insert_eq.
      * by rewrite lookup_insert_ne.
Qed.

(** Every name given to [_registerNoopCommands] is answered with an empty
    result, once and with nothing else, whatever the handler held under that
    name before. *)
Theorem registered_noop_answers this names fullMethodName id params stimuli :
  In fullMethodName names ->
  truthy id = true ->
  trace (reactions stimuli
           (step (_registerNoopCommands names this)
                 (Frontend (command id fullMethodName params)) initial))
  = Did (SendResponse id VNull VUndefined) :: (Got <$> stimuli).
Proof.
  intros Hin Hid.
  assert (Hs : _specialCommands (_registerNoopCommands names this) !! fullMethodName
               = Some (VObj [])).
  { simpl. apply lookup_registered_noops. by left. }
  unfold step, command.
  rewrite (handleCommand_special _
             [("id", id); ("method", VStr fullMethodName); ("params", params)]
             fullMethodName eq_refl) by by rewrite Hs.
  rewrite Hs. simpl. rewrite (_handleMethodResult_with_id _ _ _ _ Hid). simpl.
  by rewrite reactions_quiet.
Qed.

Lemma registered_noop_answers_witness :
  trace (reactions [Break VNull]
           (step (_registerNoopCommands ["Timeline.start"; "Timeline.stop"]
                    (_registerQuery "Timeline.stop" (VNum 1) example_handler))
                 (Frontend (command (VStr "a") "Timeline.stop" VUndefined)) initial))
  = [Did (SendResponse (VStr "a") VNull VUndefined); Got (Break VNull)].
Proof.
  apply (registered_noop_answers _ ["Timeline.start"; "Timeline.stop"]
           "Timeline.stop" (VStr "a") VUndefined [Break VNull]).
  - simpl. right. left. reflexivity.
  - reflexivity.
Defined.



Lemma responses_expand_nothing t :
  responses (expand (fun _ _ => []) t) = responses t.
Proof.
  induction t as [|e t IH]; [done|].
  change (e :: t) with ([e] ++ t). rewrite expand_app, !responses_app, IH.
  f_equal. by destruct e.
Qed.

(** A command without an id (an id that is missing, null, 0, the empty
    string or false) is never answered by the dispatcher: a static override
    does nothing at all for it, and under a resolved method every completion
    is dropped, so that the trace holds the responses the method makes on its
    own and no other. *)
Theorem command_without_id_gets_no_response this fields fullMethodName stimuli :
  assoc "method" fields = VStr fullMethodName ->
  truthy (assoc "id" fields) = false ->
  let special := default VUndefined (_specialCommands this !! fullMethodName) in
  let dispatched := step this (Frontend (VObj fields)) initial in
  (truthy special = true ->
   trace (reactions stimuli dispatched) = Got <$> stimuli)
  /\ (truthy special = false ->
      forall agent method,
        _agents this !! hd "" (split "." fullMethodName) = Some agent ->
        agent !! default "undefined" (split "." fullMethodName !! 1%nat)
          = Some (PFun method) ->
        let alone := trace (reactions stimuli
                              (exec (method (assoc "params" fields)) initial)) in
        trace (reactions stimuli dispatched) = expand (fun _ _ => []) alone
        /\ responses (trace (reactions stimuli dispatched)) = responses alone).
Proof.
  intros Hm Hid special dispatched. split.
  - intros Hs. unfold dispatched, step.
    rewrite (handleCommand_special _ _ _ Hm Hs).
    unfold _handleMethodResult. rewrite Hid. simpl.
    by rewrite reactions_quiet.
  - intros Hs agent method Ha Hp alone.
    assert (Ht : trace (reactions stimuli dispatched) = expand (fun _ _ => []) alone).
    { unfold dispatched, alone.
      rewrite (dispatch_resolved _ _ _ _ _ (fun _ _ => []) stimuli Hm Hs Ha Hp);
        [done|].
      intros error result. unfold _handleMethodResult. by rewrite Hid. }
    split; [done|]. rewrite Ht. apply responses_expand_nothing.
Qed.

Lemma command_without_id_gets_no_response_witness :
  trace (reactions [Reply 0 VNull VUndefined]
           (step example_handler
              (Frontend (VObj [("id", VNum 0); ("method", VStr "Debugger.resume")]))
              initial))
  = [Called (Request "continue" VUndefined); Got (Reply 0 VNull VUndefined);
     Did (SendEvent "Debugger.resumed")].
Proof.
  destruct (command_without_id_gets_no_response example_handler
              [("id", VNum 0); ("method", VStr "Debugger.resume")]
              "Debugger.resume" [Reply 0 VNull VUndefined] eq_refl eq_refl)
    as (_ & H).
  exact (proj1 (H eq_refl (DebuggerAgent example_convert example_js) resume
                  eq_refl eq_refl)).
Defined.





(** * More of the agent *)







(** ** Single requests *)

Ltac settle :=
  unfold react, _handleMethodResult;
  repeat (progress (cbn -[truthy not_nullish is_defined];
                    repeat match goal with
                           | H : truthy ?v = _ |- context [truthy ?v] => rewrite H
                           | H : not_nullish ?v = _ |- context [not_nullish ?v] =>
                               rewrite H
                           | H : is_defined ?v = _ |- context [is_defined ?v] =>
                               rewrite H
                           | H : assoc ?k ?l = _ |- context [assoc ?k ?l] => rewrite H
                           | |- context [truthy VUndefined] =>
                               change (truthy VUndefined) with false
                           | |- context [truthy VNull] =>
                               change (truthy VNull) with false
                           | |- context [is_defined VUndefined] =>
                               change (is_defined VUndefined) with false
                           | |- context [not_nullish VUndefined] =>
                               change (not_nullish VUndefined) with false
                           | |- context [not_nullish VNull] =>
                               change (not_nullish VNull) with false
                           end)).



Lemma expand_Got f stimuli : expand f (Got <$> stimuli) = Got <$> stimuli.
Proof.
  induction stimuli as [|s stimuli IH]; [done|].
  change (Got <$> s :: stimuli) with ([Got s] ++ (Got <$> stimuli)).
  by rewrite expand_app, IH.
Qed.

Lemma calls_app t1 t2 : calls (t1 ++ t2) = calls t1 ++ calls t2.
Proof. apply omap_app. Qed.

Lemma calls_Got stimuli : calls (Got <$> stimuli) = [].
Proof. induction stimuli as [|s stimuli IH]; [done|]. apply IH. Qed.

(** A method that leaves nothing for later turns: what it did in its turn,
    and then only what the collaborators do. *)
Lemma dispatch_Debugger_synchronous convert js RuntimeAgent PageAgent
    id fullMethodName methodName method params es stimuli :
  split "." fullMethodName = ["Debugger"; methodName] ->
  DebuggerAgent convert js !! methodName = Some (PFun method) ->
  exec (method params) initial = record_all es initial ->
  trace (run (_initializeRegistry convert js RuntimeAgent PageAgent)
           (Frontend (command id fullMethodName params) :: (Backend <$> stimuli))
           initial)
  = expand (method_result_calls id) es ++ (Got <$> stimuli).
Proof.
  intros Hsplit Hp Hexec.
  rewrite (dispatch_Debugger_trace convert js RuntimeAgent PageAgent id
             fullMethodName methodName method params stimuli Hsplit Hp).
  rewrite Hexec, reactions_quiet by done. simpl.
  by rewrite expand_app, expand_Got.
Qed.

(** setBreakpointByUrl with a urlRegex in its params, null included,
    completes at once with an error and never makes a request of the
    backend. *)
Theorem setBreakpointByUrl_refuses_urlRegex
    convert js RuntimeAgent PageAgent id fields stimuli :
  truthy id = true ->
  is_defined (assoc "urlRegex" fields) = true ->
  let t := trace (run (_initializeRegistry convert js RuntimeAgent PageAgent)
                    (Frontend (command id "Debugger.setBreakpointByUrl" (VObj fields))
                     :: (Backend <$> stimuli))
                    initial) in
  t = Did (SendResponse id
             (VStr "Error: setBreakpointByUrl using urlRegex is not implemented.")
             VUndefined)
      :: (Got <$> stimuli)
  /\ calls t = [].
Proof.
  intros Hid Hregex t.
  assert (Ht : t = Did (SendResponse id
             (VStr "Error: setBreakpointByUrl using urlRegex is not implemented.")
             VUndefined)
      :: (Got <$> stimuli)).
  { unfold t.
    rewrite (dispatch_Debugger_synchronous convert js RuntimeAgent PageAgent id
               "Debugger.setBreakpointByUrl" "setBreakpointByUrl"
               (setBreakpointByUrl convert js) (VObj fields)
               [Completed
                  (VStr "Error: setBreakpointByUrl using urlRegex is not implemented.")
                  VUndefined]
               stimuli eq_refl eq_refl).
    - simpl. unfold method_result_calls. by rewrite Hid.
    - simpl. by rewrite Hregex. }
  split; [done|]. rewrite Ht. apply calls_Got.
Qed.

Lemma setBreakpointByUrl_refuses_urlRegex_witness :
  let t := trace (run example_handler
                    (Frontend (command (VNum 2) "Debugger.setBreakpointByUrl"
                                 (VObj [("lineNumber", VNum 10);
                                        ("urlRegex", VStr ".*[.]js")]))
                     :: (Backend <$> [Reply 0 VNull VUndefined]))
                    initial) in
  t = [Did (SendResponse (VNum 2)
              (VStr "Error: setBreakpointByUrl using urlRegex is not implemented.")
              VUndefined);
       Got (Reply 0 VNull VUndefined)]
  /\ calls t = [].
Proof.
  exact (setBreakpointByUrl_refuses_urlRegex example_convert example_js ∅ ∅
           (VNum 2) [("lineNumber", VNum 10); ("urlRegex", VStr ".*[.]js")]
           [Reply 0 VNull VUndefined] eq_refl eq_refl).
Defined.

(** setBreakpointByUrl without a urlRegex makes one setbreakpoint request
    for the converted url with the line, column and condition as given.  Any
    error that is not null or undefined, a falsy one included, is the error
    of the command.  Otherwise the result carries the breakpoint number as a
    string and one converted location for each actual location, in their
    order. *)
Theorem setBreakpointByUrl_returns_every_location
    convert js RuntimeAgent PageAgent id fields error response :
  truthy id = true ->
  assoc "urlRegex" fields = VUndefined ->
  let t := trace (run (_initializeRegistry convert js RuntimeAgent PageAgent)
                    [Frontend (command id "Debugger.setBreakpointByUrl" (VObj fields));
                     Backend (Reply 0 error response)] initial) in
  let asked := [Called (setbreakpoint_by_url_request convert fields);
                Got (Reply 0 error response)] in
  (not_nullish error = true ->
   t = asked ++ [Did (SendResponse id error VUndefined)])
  /\ (not_nullish error = false ->
      forall body locations,
        response = VObj body ->
        not_nullish (assoc "breakpoint" body) = true ->
        assoc "actual_locations" body = VArr locations ->
        t = asked
            ++ [Did (SendResponse id VNull
                       (VObj [("breakpointId", toString js (assoc "breakpoint" body));
                              ("locations",
                               VArr (v8LocationToInspectorLocation convert
                                       <$> locations))]))]).
Proof.
  intros Hid Hregex t asked. subst t asked. unfold run. cbn [fold_left step].
  dispatch "Debugger.setBreakpointByUrl" "setBreakpointByUrl"
           (setBreakpointByUrl convert js).
  split.
  - intros Herror. by settle.
  - intros Herror body locations -> Hbp Hlocs. by settle.
Qed.

Lemma setBreakpointByUrl_returns_every_location_witness :
  trace (run example_handler
           [Frontend (command (VNum 2) "Debugger.setBreakpointByUrl"
                        (VObj [("url", VStr "file:///app.js"); ("lineNumber", VNum 10)]));
            Backend (Reply 0 VNull
                       (VObj [("breakpoint", VNum 4);
                              ("actual_locations",
                               VArr [VObj [("line", VNum 10)];
                                     VObj [("line", VNum 12)]])]))]
           initial)
  = [Called (setbreakpoint_by_url_request example_convert
               [("url", VStr "file:///app.js"); ("lineNumber", VNum 10)]);
     Got (Reply 0 VNull
            (VObj [("breakpoint", VNum 4);
                   ("actual_locations",
                    VArr [VObj [("line", VNum 10)]; VObj [("line", VNum 12)]])]));
     Did (SendResponse (VNum 2) VNull
            (VObj [("breakpointId", VNum 4);
                   ("locations",
                    VArr [VObj [("line", VNum 10)]; VObj [("line", VNum 12)]])]))].
Proof.
  destruct (setBreakpointByUrl_returns_every_location example_convert example_js
              ∅ ∅ (VNum 2)
              [("url", VStr "file:///app.js"); ("lineNumber", VNum 10)]
              VNull
              (VObj [("breakpoint", VNum 4);
                     ("actual_locations",
                      VArr [VObj [("line", VNum 10)]; VObj [("line", VNum 12)]])])
              eq_refl eq_refl) as (_ & H).
  exact (H eq_refl _ _ eq_refl eq_refl eq_refl).
Defined.

(** removeBreakpoint passes the breakpoint id to the backend as it came and
    completes with whatever error the backend reports and a null result, on
    failure as on success. *)
Theorem removeBreakpoint_result_is_null
    convert js RuntimeAgent PageAgent id fields error response :
  truthy id = true ->
  trace (run (_initializeRegistry convert js RuntimeAgent PageAgent)
           [Frontend (command id "Debugger.removeBreakpoint" (VObj fields));
            Backend (Reply 0 error response)] initial)
  = [Called (ClearBreakpoint (assoc "breakpointId" fields));
     Got (Reply 0 error response);
     Did (SendResponse id error VNull)].
Proof.
  intros Hid. unfold run. cbn [fold_left step].
  dispatch "Debugger.removeBreakpoint" "removeBreakpoint" removeBreakpoint.
  by settle.
Qed.

Lemma removeBreakpoint_result_is_null_witness :
  trace (run example_handler
           [Frontend (command (VNum 3) "Debugger.removeBreakpoint"
                        (VObj [("breakpointId", VStr "4")]));
            Backend (Reply 0 (VStr "no such breakpoint") (VObj []))] initial)
  = [Called (ClearBreakpoint (VStr "4"));
     Got (Reply 0 (VStr "no such breakpoint") (VObj []));
     Did (SendResponse (VNum 3) (VStr "no such breakpoint") VNull)].
Proof.
  exact (removeBreakpoint_result_is_null example_convert example_js ∅ ∅
           (VNum 3) [("breakpointId", VStr "4")] (VStr "no such breakpoint") (VObj [])
           eq_refl).
Defined.

(** continueToLocation first installs a breakpoint at the location.  When
    that fails, with any error that is not null or undefined, the error is the
    error of the command, the continue-to breakpoint is not recorded and the
    backend is not asked to continue.  When it succeeds the breakpoint number
    is recorded on the break handler before a plain continue is requested,
    and the command completes with the error of that request: it never sends
    'Debugger.resumed'. *)
Theorem continueToLocation_records_breakpoint_then_continues
    convert js RuntimeAgent PageAgent id fields location error response :
  truthy id = true ->
  assoc "location" fields = VObj location ->
  let this := _initializeRegistry convert js RuntimeAgent PageAgent in
  let message := Frontend (command id "Debugger.continueToLocation" (VObj fields)) in
  let asked := [Called (setbreakpoint_at_location_request convert location);
                Got (Reply 0 error response)] in
  (not_nullish error = true ->
   trace (run this [message; Backend (Reply 0 error response)] initial)
   = asked ++ [Did (SendResponse id error VUndefined)])
  /\ (not_nullish error = false ->
      forall body continueError continueResult,
        response = VObj body ->
        trace (run this [message; Backend (Reply 0 error response)] initial)
        = asked ++ [Did (SetContinueToLocationBreakpointId (assoc "breakpoint" body));
                    Called (Request "continue" VUndefined)]
        /\ trace (run this [message; Backend (Reply 0 error response);
                            Backend (Reply 0 continueError continueResult)] initial)
           = asked ++ [Did (SetContinueToLocationBreakpointId (assoc "breakpoint" body));
                       Called (Request "continue" VUndefined);
                       Got (Reply 0 continueError continueResult);
                       Did (SendResponse id continueError VUndefined)]).
Proof.
  intros Hid Hlocation this message asked. subst this message asked.
  unfold run. cbn [fold_left step].
  dispatch "Debugger.continueToLocation" "continueToLocation"
           (continueToLocation convert).
  split.
  - intros Herror. by settle.
  - intros Herror body continueError continueResult ->. split; by settle.
Qed.

Lemma continueToLocation_records_breakpoint_then_continues_witness :
  trace (run example_handler
           [Frontend (command (VNum 6) "Debugger.continueToLocation"
                        (VObj [("location",
                                VObj [("scriptId", VStr "31");
                                      ("lineNumber", VNum 7);
                                      ("columnNumber", VNum 0)])]));
            Backend (Reply 0 VNull (VObj [("breakpoint", VNum 9)]));
            Backend (Reply 0 VNull VUndefined)] initial)
  = [Called (setbreakpoint_at_location_request example_convert
               [("scriptId", VStr "31"); ("lineNumber", VNum 7);
                ("columnNumber", VNum 0)]);
     Got (Reply 0 VNull (VObj [("breakpoint", VNum 9)]));
     Did (SetContinueToLocationBreakpointId (VNum 9));
     Called (Request "continue" VUndefined);
     Got (Reply 0 VNull VUndefined);
     Did (SendResponse (VNum 6) VNull VUndefined)].
Proof.
  destruct (continueToLocation_records_breakpoint_then_continues
              example_convert example_js ∅ ∅ (VNum 6)
              [("location",
                VObj [("scriptId", VStr "31"); ("lineNumber", VNum 7);
                      ("columnNumber", VNum 0)])]
              [("scriptId", VStr "31"); ("lineNumber", VNum 7);
               ("columnNumber", VNum 0)]
              VNull (VObj [("breakpoint", VNum 9)]) eq_refl eq_refl) as (_ & H).
  exact (proj2 (H eq_refl [("breakpoint", VNum 9)] VNull VUndefined eq_refl)).
Defined.

(** getScriptSource asks for the one script with its source.  An error of
    the backend is the error of the command; otherwise the result is the
    source of the first script of the reply, as it came.  When the reply
    lists no script the callback throws: the command gets no response, then
    or later. *)
Theorem getScriptSource_returns_first_source
    convert js RuntimeAgent PageAgent id fields err result :
  truthy id = true ->
  let this := _initializeRegistry convert js RuntimeAgent PageAgent in
  let message := Frontend (command id "Debugger.getScriptSource" (VObj fields)) in
  let asked :=
    [Called (Request "scripts"
               (VObj [("includeSource", VBool true); ("types", VNum 4);
                      ("ids", VArr [assoc "scriptId" fields])]));
     Got (Reply 0 err result)] in
  (truthy err = true ->
   trace (run this [message; Backend (Reply 0 err result)] initial)
   = asked ++ [Did (SendResponse id err VUndefined)])
  /\ (truthy err = false ->
      forall script rest,
        result = VArr (VObj script :: rest) ->
        trace (run this [message; Backend (Reply 0 err result)] initial)
        = asked ++ [Did (SendResponse id VNull
                           (VObj [("scriptSource", assoc "source" script)]))])
  /\ (truthy err = false ->
      result = VArr [] ->
      forall stimuli,
        trace (run this (message :: (Backend <$> Reply 0 err result :: stimuli)) initial)
        = asked ++ [Uncaught "TypeError"] ++ (Got <$> stimuli)).
Proof.
  intros Hid this message asked. subst this message asked.
  split; [|split].
  - intros Herr. unfold run. cbn [fold_left step].
    dispatch "Debugger.getScriptSource" "getScriptSource" getScriptSource.
    by settle.
  - intros Herr script rest ->. unfold run. cbn [fold_left step].
    dispatch "Debugger.getScriptSource" "getScriptSource" getScriptSource.
    by settle.
  - intros Herr -> stimuli.
    rewrite (dispatch_Debugger_trace convert js RuntimeAgent PageAgent id
               "Debugger.getScriptSource" "getScriptSource" getScriptSource
               (VObj fields) _ eq_refl eq_refl).
    rewrite reactions_cons.
    assert (Hthrown :
      react (Reply 0 err (VArr [])) (exec (getScriptSource (VObj fields)) initial)
      = record_all
          [Called (Request "scripts"
                     (VObj [("includeSource", VBool true); ("types", VNum 4);
                            ("ids", VArr [assoc "scriptId" fields])]));
           Got (Reply 0 err (VArr []));
           Uncaught "TypeError"] initial).
    { unfold react. simpl. by rewrite Herr. }
    rewrite Hthrown, reactions_quiet by done. simpl.
    by rewrite expand_Got.
Qed.

Lemma getScriptSource_returns_first_source_witness :
  trace (run example_handler
           (Frontend (command (VNum 7) "Debugger.getScriptSource"
                        (VObj [("scriptId", VStr "31")]))
            :: (Backend <$> [Reply 0 VNull (VArr []); Connected]))
           initial)
  = [Called (Request "scripts"
               (VObj [("includeSource", VBool true); ("types", VNum 4);
                      ("ids", VArr [VStr "31"])]));
     Got (Reply 0 VNull (VArr []));
     Uncaught "TypeError";
     Got Connected].
Proof.
  destruct (getScriptSource_returns_first_source example_convert example_js ∅ ∅
              (VNum 7) [("scriptId", VStr "31")] VNull (VArr []) eq_refl)
    as (_ & _ & H).
  exact (H eq_refl eq_refl [Connected]).
Defined.

(** getFunctionDetails looks one handle up.  An error of the backend is
    the error of the command; otherwise the result is the conversion of what
    the body holds under the handle; a body that is null or undefined makes
    the callback throw and the command gets no response. *)
Theorem getFunctionDetails_converts_the_lookup
    convert js RuntimeAgent PageAgent id fields error responseBody :
  truthy id = true ->
  let t := trace (run (_initializeRegistry convert js RuntimeAgent PageAgent)
                    [Frontend (command id "Debugger.getFunctionDetails" (VObj fields));
                     Backend (Reply 0 error responseBody)] initial) in
  let handle := assoc "functionId" fields in
  let asked :=
    [Called (Request "lookup"
               (VObj [("handles", VArr [handle]); ("includeSource", VBool false)]));
     Got (Reply 0 error responseBody)] in
  (truthy error = true -> t = asked ++ [Did (SendResponse id error VUndefined)])
  /\ (truthy error = false ->
      not_nullish responseBody = true ->
      t = asked
          ++ [Did (SendResponse id VNull
                     (v8FunctionLookupToFunctionDetails convert
                        (member js responseBody handle)))])
  /\ (truthy error = false ->
      not_nullish responseBody = false ->
      t = asked ++ [Uncaught "TypeError"]).
Proof.
  intros Hid t handle asked. subst t handle asked.
  unfold run. cbn [fold_left step].
  dispatch "Debugger.getFunctionDetails" "getFunctionDetails"
           (getFunctionDetails convert js).
  split; [|split].
  - intros Herror. by settle.
  - intros Herror Hbody. by settle.
  - intros Herror Hbody. by settle.
Qed.

Lemma getFunctionDetails_converts_the_lookup_witness :
  trace (run example_handler
           [Frontend (command (VNum 7) "Debugger.getFunctionDetails"
                        (VObj [("functionId", VNum 12)]));
            Backend (Reply 0 VNull VNull)] initial)
  = [Called (Request "lookup"
               (VObj [("handles", VArr [VNum 12]); ("includeSource", VBool false)]));
     Got (Reply 0 VNull VNull);
     Uncaught "TypeError"].
Proof.
  destruct (getFunctionDetails_converts_the_lookup example_convert example_js ∅ ∅
              (VNum 7) [("functionId", VNum 12)] VNull VNull eq_refl)
    as (_ & _ & H).
  exact (H eq_refl eq_refl).
Defined.

(** A method that has run dry: after [first] nothing of it is left for
    later turns. *)
Lemma dispatch_Debugger_settled convert js RuntimeAgent PageAgent
    id fullMethodName methodName method params first es stimuli :
  split "." fullMethodName = ["Debugger"; methodName] ->
  DebuggerAgent convert js !! methodName = Some (PFun method) ->
  reactions first (exec (method params) initial) = record_all es initial ->
  trace (run (_initializeRegistry convert js RuntimeAgent PageAgent)
           (Frontend (command id fullMethodName params)
            :: (Backend <$> first ++ stimuli))
           initial)
  = expand (method_result_calls id) es ++ (Got <$> stimuli).
Proof.
  intros Hsplit Hp Hexec.
  rewrite (dispatch_Debugger_trace convert js RuntimeAgent PageAgent id
             fullMethodName methodName method params _ Hsplit Hp).
  rewrite reactions_app, Hexec, reactions_quiet by done. simpl.
  by rewrite expand_app, expand_Got.
Qed.

(** canSetScriptSource, disable and setOverlayMessage complete within the
    turn that dispatches them, whatever their params, and leave nothing
    behind: one response, no request of the backend, and nothing more when
    the collaborators act later.  disable closes the connection first. *)
Theorem synchronous_commands_complete_at_once
    convert js RuntimeAgent PageAgent id params fullMethodName before error result
    stimuli :
  In (fullMethodName, before, error, result) synchronous_commands ->
  truthy id = true ->
  let t := trace (run (_initializeRegistry convert js RuntimeAgent PageAgent)
                    (Frontend (command id fullMethodName params)
                     :: (Backend <$> stimuli))
                    initial) in
  t = (Did <$> before) ++ [Did (SendResponse id error result)] ++ (Got <$> stimuli)
  /\ calls t = [].
Proof.
  intros Hin Hid t.
  assert (Ht : t = (Did <$> before) ++ [Did (SendResponse id error result)]
                   ++ (Got <$> stimuli)).
  { unfold t. simpl in Hin.
    destruct Hin as [Hin|[Hin|[Hin|[]]]]; injection Hin as <- <- <- <-.
    - rewrite (dispatch_Debugger_synchronous convert js RuntimeAgent PageAgent id
                 "Debugger.canSetScriptSource" "canSetScriptSource"
                 canSetScriptSource params
                 [Completed VNull (VObj [("result", VBool true)])]
                 stimuli eq_refl eq_refl eq_refl).
      simpl. unfold method_result_calls. by rewrite Hid.
    - rewrite (dispatch_Debugger_synchronous convert js RuntimeAgent PageAgent id
                 "Debugger.disable" "disable" disable params
                 [Did Close; Completed VUndefined VUndefined]
                 stimuli eq_refl eq_refl eq_refl).
      simpl. unfold method_result_calls. by rewrite Hid.
    - rewrite (dispatch_Debugger_synchronous convert js RuntimeAgent PageAgent id
                 "Debugger.setOverlayMessage" "setOverlayMessage"
                 setOverlayMessage params
                 [Completed VUndefined VUndefined]
                 stimuli eq_refl eq_refl eq_refl).
      simpl. unfold method_result_calls. by rewrite Hid. }
  split; [done|]. rewrite Ht, !calls_app, calls_Got.
  simpl in Hin.
  by destruct Hin as [Hin|[Hin|[Hin|[]]]]; injection Hin as <- <- <- <-.
Qed.

Lemma synchronous_commands_complete_at_once_witness :
  let t := trace (run example_handler
                    (Frontend (command (VNum 9) "Debugger.disable" VNull)
                     :: (Backend <$> [Connected; Break VNull]))
                    initial) in
  t = [Did Close; Did (SendResponse (VNum 9) VUndefined VUndefined);
       Got Connected; Got (Break VNull)]
  /\ calls t = [].
Proof.
  apply (synchronous_commands_complete_at_once example_convert example_js ∅ ∅
           (VNum 9) VNull "Debugger.disable" [Close] VUndefined VUndefined
           [Connected; Break VNull]).
  - simpl. right. left. reflexivity.
  - reflexivity.
Defined.

(** When the suspend or continue request of pause, resume, stepOver,
    stepInto or stepOut fails, the error is the error of the command and no
    notification is sent to the front end, then or later. *)
Theorem failed_pause_or_resume_sends_no_notification
    convert js RuntimeAgent PageAgent id params err response
    fullMethodName request notification stimuli :
  In (fullMethodName, request, notification) pause_and_resume_commands ->
  truthy id = true ->
  truthy err = true ->
  trace (run (_initializeRegistry convert js RuntimeAgent PageAgent)
           (Frontend (command id fullMethodName params)
            :: (Backend <$> [Reply 0 err response] ++ stimuli))
           initial)
  = [Called request; Got (Reply 0 err response);
     Did (SendResponse id err VUndefined)]
    ++ (Got <$> stimuli).
Proof.
  intros Hin Hid Herr.
  assert (Hgoal : forall methodName method,
    split "." fullMethodName = ["Debugger"; methodName] ->
    DebuggerAgent convert js !! methodName = Some (PFun method) ->
    reactions [Reply 0 err response] (exec (method params) initial)
    = record_all [Called request; Got (Reply 0 err response);
                  Completed err VUndefined] initial ->
    trace (run (_initializeRegistry convert js RuntimeAgent PageAgent)
             (Frontend (command id fullMethodName params)
              :: (Backend <$> [Reply 0 err response] ++ stimuli))
             initial)
    = [Called request; Got (Reply 0 err response);
       Did (SendResponse id err VUndefined)]
      ++ (Got <$> stimuli)).
  { intros methodName method Hsplit Hp Hexec.
    rewrite (dispatch_Debugger_settled convert js RuntimeAgent PageAgent id
               fullMethodName methodName method params _ _ stimuli
               Hsplit Hp Hexec).
    simpl. unfold method_result_calls. by rewrite Hid. }
  simpl in Hin.
  destruct Hin as [Hin|[Hin|[Hin|[Hin|[Hin|[]]]]]]; injection Hin as <- <- <-.
  - apply (Hgoal "pause" pause eq_refl eq_refl).
    unfold react. simpl. by rewrite Herr.
  - apply (Hgoal "resume" resume eq_refl eq_refl).
    unfold react. simpl. by rewrite Herr.
  - apply (Hgoal "stepOver" stepOver eq_refl eq_refl).
    unfold react. simpl. by rewrite Herr.
  - apply (Hgoal "stepInto" stepInto eq_refl eq_refl).
    unfold react. simpl. by rewrite Herr.
  - apply (Hgoal "stepOut" stepOut eq_refl eq_refl).
    unfold react. simpl. by rewrite Herr.
Qed.

Lemma failed_pause_or_resume_sends_no_notification_witness :
  trace (run example_handler
           (Frontend (command (VNum 2) "Debugger.stepOver" VUndefined)
            :: (Backend <$> [Reply 0 (VStr "not paused") VUndefined] ++ [Break VNull]))
           initial)
  = [Called (Request "continue" (VObj [("stepaction", VStr "next")]));
     Got (Reply 0 (VStr "not paused") VUndefined);
     Did (SendResponse (VNum 2) (VStr "not paused") VUndefined);
     Got (Break VNull)].
Proof.
  apply (failed_pause_or_resume_sends_no_notification example_convert example_js
           ∅ ∅ (VNum 2) VUndefined (VStr "not paused") VUndefined
           "Debugger.stepOver"
           (Request "continue" (VObj [("stepaction", VStr "next")]))
           (SendEvent "Debugger.resumed") [Break VNull]).
  - simpl. right. right. left. reflexivity.
  - reflexivity.
  - reflexivity.
Defined.

(** A command for a method that reads its params, sent without params or
    with null params, makes the method throw before it does anything: no
    request is made of the backend and the command gets no response, then or
    later. *)
Theorem params_reading_commands_throw_without_params
    convert js RuntimeAgent PageAgent id params fullMethodName stimuli :
  In fullMethodName params_reading_commands ->
  not_nullish params = false ->
  trace (run (_initializeRegistry convert js RuntimeAgent PageAgent)
           (Frontend (command id fullMethodName params) :: (Backend <$> stimuli))
           initial)
  = Uncaught "TypeError" :: (Got <$> stimuli).
Proof.
  intros Hin Hparams.
  assert (Hgoal : forall methodName method,
    split "." fullMethodName = ["Debugger"; methodName] ->
    DebuggerAgent convert js !! methodName = Some (PFun method) ->
    exec (method params) initial = record_all [Uncaught "TypeError"] initial ->
    trace (run (_initializeRegistry convert js RuntimeAgent PageAgent)
             (Frontend (command id fullMethodName params) :: (Backend <$> stimuli))
             initial)
    = Uncaught "TypeError" :: (Got <$> stimuli)).
  { intros methodName method Hsplit Hp Hexec.
    by rewrite (dispatch_Debugger_synchronous convert js RuntimeAgent PageAgent id
                  fullMethodName methodName method params _ stimuli
                  Hsplit Hp Hexec). }
  simpl in Hin.
  destruct Hin as [Hin|[Hin|[Hin|[Hin|[Hin|[Hin|[Hin|[Hin|[]]]]]]]]]; subst fullMethodName.
  - apply (Hgoal "continueToLocation" (continueToLocation convert) eq_refl eq_refl).
    by destruct params.
  - apply (Hgoal "getScriptSource" getScriptSource eq_refl eq_refl).
    by destruct params.
  - apply (Hgoal "setScriptSource" (setScriptSource convert) eq_refl eq_refl).
    by destruct params.
  - apply (Hgoal "setPauseOnExceptions" (setPauseOnExceptions js) eq_refl eq_refl).
    by destruct params.
  - apply (Hgoal "setBreakpointByUrl" (setBreakpointByUrl convert js) eq_refl eq_refl).
    by destruct params.
  - apply (Hgoal "removeBreakpoint" removeBreakpoint eq_refl eq_refl).
    by destruct params.
  - apply (Hgoal "evaluateOnCallFrame" (evaluateOnCallFrame convert js)
             eq_refl eq_refl).
    by destruct params.
  - apply (Hgoal "getFunctionDetails" (getFunctionDetails convert js)
             eq_refl eq_refl).
    by destruct params.
Qed.

Lemma params_reading_commands_throw_without_params_witness :
  trace (run example_handler
           (Frontend (command (VNum 4) "Debugger.evaluateOnCallFrame" VUndefined)
            :: (Backend <$> [Connected]))
           initial)
  = [Uncaught "TypeError"; Got Connected].
Proof.
  apply (params_reading_commands_throw_without_params example_convert example_js
           ∅ ∅ (VNum 4) VUndefined "Debugger.evaluateOnCallFrame" [Connected]).
  - simpl. do 6 right. left. reflexivity.
  - reflexivity.
Defined.

(** ** The bootstrap, to its end *)

Lemma exec_addScripts scripts q w :
  exec (seq (foldr (fun script k => Out (AddScript script) k) Ret scripts) q) w
  = exec q (record_all (Did <$> (AddScript <$> scripts)) w).
Proof.
  revert w. induction scripts as [|script scripts IH]; intros w; simpl.
  - by rewrite record_all_nil.
  - rewrite IH. f_equal. unfold record_all, record; simpl. f_equal.
    by rewrite <- app_assoc.
Qed.

Lemma bootstrap_scripts_success params b err body bps replies scriptsError scripts :
  truthy err = false ->
  assoc "breakpoints" body = VArr (VObj <$> bps) ->
  length replies = length bps ->
  truthy scriptsError = false ->
  reactions ([Running b; Connected; Reply 0 err (VObj body)] ++ answers replies
             ++ [Reply 0 scriptsError (VArr scripts)])
    (exec (enable params) initial)
  = record_all
      ([Called (Request "listbreakpoints" (VObj []));
        Got (Reply 0 err (VObj body))]
       ++ clearing (assoc "number" <$> bps) replies
       ++ [Did ScriptReset; Called scripts_request;
           Got (Reply 0 scriptsError (VArr scripts))]
       ++ (Did <$> (AddScript <$> scripts))
       ++ (if b then [] else [Did (SendBacktraceToFrontend VNull)]))
      (connected b).
Proof.
  intros Herr Hbody Hlen Hs.
  rewrite app_assoc, reactions_app.
  rewrite (bootstrap_clears params b err body bps replies Herr Hbody Hlen).
  simpl. unfold react. simpl. rewrite Hs. simpl.
  rewrite exec_addScripts. simpl.
  destruct b; simpl;
    unfold record_all, set_outstanding, record, connected; simpl; f_equal;
    rewrite <- ?app_assoc; simpl; by rewrite ?app_nil_r.
Qed.

Lemma expand_Did f os : expand f (Did <$> os) = Did <$> os.
Proof.
  induction os as [|o os IH]; [done|].
  change (Did <$> o :: os) with ([Did o] ++ (Did <$> os)).
  by rewrite expand_app, IH.
Qed.

(** When the script list arrives, the bootstrap adds every script of it to
    the script registry, in order and after the reset that preceded the
    request, and then, only when the backend is paused, asks for the
    backtrace to be sent to the front end.  That ends it: nothing is left
    outstanding, and the enable call has its one response from 'connect'. *)
Theorem bootstrap_adds_scripts_then_reports_pause
    convert js RuntimeAgent PageAgent id params b err body bps replies
    scriptsError scripts :
  truthy id = true ->
  truthy err = false ->
  assoc "breakpoints" body = VArr (VObj <$> bps) ->
  length replies = length bps ->
  truthy scriptsError = false ->
  let w := run (_initializeRegistry convert js RuntimeAgent PageAgent)
             (Frontend (command id "Debugger.enable" params)
              :: (Backend <$> [Running b; Connected; Reply 0 err (VObj body)]
                              ++ answers replies
                              ++ [Reply 0 scriptsError (VArr scripts)]))
             initial in
  trace w
  = [Did Connect; Got (Running b); Got Connected;
     Did (SendResponse id VUndefined VUndefined);
     Called (Request "listbreakpoints" (VObj []));
     Got (Reply 0 err (VObj body))]
    ++ clearing (assoc "number" <$> bps) replies
    ++ [Did ScriptReset; Called scripts_request;
        Got (Reply 0 scriptsError (VArr scripts))]
    ++ (Did <$> (AddScript <$> scripts))
    ++ (if b then [] else [Did (SendBacktraceToFrontend VNull)])
  /\ outstanding w = [].
Proof.
  intros Hid Herr Hbody Hlen Hs w.
  assert (Hw : w = bind_world
                     (fun error result =>
                        _handleMethodResult id "Debugger.enable" error result)
                     (method_result_calls id)
                     (record_all
                        ([Called (Request "listbreakpoints" (VObj []));
                          Got (Reply 0 err (VObj body))]
                         ++ clearing (assoc "number" <$> bps) replies
                         ++ [Did ScriptReset; Called scripts_request;
                             Got (Reply 0 scriptsError (VArr scripts))]
                         ++ (Did <$> (AddScript <$> scripts))
                         ++ (if b then []
                             else [Did (SendBacktraceToFrontend VNull)]))
                        (connected b))).
  { unfold w.
    rewrite (dispatch_Debugger convert js RuntimeAgent PageAgent id
               "Debugger.enable" "enable" enable params _ eq_refl eq_refl).
    by rewrite (bootstrap_scripts_success params b err body bps replies
                  scriptsError scripts Herr Hbody Hlen Hs). }
  split; [|by rewrite Hw].
  rewrite Hw. simpl. rewrite !expand_app, expand_clearing. simpl.
  rewrite !expand_app, expand_Did.
  unfold method_result_calls. rewrite Hid. simpl.
  rewrite <- ?app_assoc. simpl. do 7 f_equal. by destruct b.
Qed.

Lemma bootstrap_adds_scripts_then_reports_pause_witness :
  let w := run example_handler
             (Frontend (command (VNum 1) "Debugger.enable" VUndefined)
              :: (Backend <$> [Running false; Connected;
                               Reply 0 VNull (VObj [("breakpoints", VArr [])])]
                              ++ answers []
                              ++ [Reply 0 VNull (VArr [VStr "a.js"; VStr "b.js"])]))
             initial in
  trace w
  = [Did Connect; Got (Running false); Got Connected;
     Did (SendResponse (VNum 1) VUndefined VUndefined);
     Called (Request "listbreakpoints" (VObj []));
     Got (Reply 0 VNull (VObj [("breakpoints", VArr [])]));
     Did ScriptReset; Called scripts_request;
     Got (Reply 0 VNull (VArr [VStr "a.js"; VStr "b.js"]));
     Did (AddScript (VStr "a.js")); Did (AddScript (VStr "b.js"));
     Did (SendBacktraceToFrontend VNull)]
  /\ outstanding w = [].
Proof.
  exact (bootstrap_adds_scripts_then_reports_pause example_convert example_js ∅ ∅
           (VNum 1) VUndefined false VNull [("breakpoints", VArr [])] [] []
           VNull [VStr "a.js"; VStr "b.js"]
           eq_refl eq_refl eq_refl eq_refl eq_refl).
Defined.

(** When the list request of the bootstrap itself fails, a warning is
    logged, no clear request is made, and the bootstrap goes on to reset the
    script registry and ask for the script list. *)
Theorem failed_list_skips_the_clears
    convert js RuntimeAgent PageAgent id params b err response :
  truthy id = true ->
  truthy err = true ->
  let t := trace (run (_initializeRegistry convert js RuntimeAgent PageAgent)
                    [Frontend (command id "Debugger.enable" params);
                     Backend (Running b); Backend Connected;
                     Backend (Reply 0 err response)] initial) in
  t = [Did Connect; Got (Running b); Got Connected;
       Did (SendResponse id VUndefined VUndefined);
       Called (Request "listbreakpoints" (VObj []));
       Got (Reply 0 err response);
       Did (Log [VStr "Warning: cannot remove old breakpoints. %s"; err]);
       Did ScriptReset; Called scripts_request]
  /\ clear_requests t = [].
Proof.
  intros Hid Herr t.
  assert (Ht : t = [Did Connect; Got (Running b); Got Connected;
       Did (SendResponse id VUndefined VUndefined);
       Called (Request "listbreakpoints" (VObj []));
       Got (Reply 0 err response);
       Did (Log [VStr "Warning: cannot remove old breakpoints. %s"; err]);
       Did ScriptReset; Called scripts_request]).
  { unfold t, run. cbn [fold_left step].
    dispatch "Debugger.enable" "enable" enable. by settle. }
  split; [done|]. by rewrite Ht.
Qed.

Lemma failed_list_skips_the_clears_witness :
  let t := trace (run example_handler
                    [Frontend (command (VNum 1) "Debugger.enable" VUndefined);
                     Backend (Running true); Backend Connected;
                     Backend (Reply 0 (VStr "no connection") VUndefined)] initial) in
  t = [Did Connect; Got (Running true); Got Connected;
       Did (SendResponse (VNum 1) VUndefined VUndefined);
       Called (Request "listbreakpoints" (VObj []));
       Got (Reply 0 (VStr "no connection") VUndefined);
       Did (Log [VStr "Warning: cannot remove old breakpoints. %s";
                 VStr "no connection"]);
       Did ScriptReset; Called scripts_request]
  /\ clear_requests t = [].
Proof.
  exact (failed_list_skips_the_clears example_convert example_js ∅ ∅
           (VNum 1) VUndefined true (VStr "no connection") VUndefined
           eq_refl eq_refl).
Defined.

(** disable does not take the listener of an earlier enable away: when
    the agent is enabled again and the connection comes up, the first enable
    call is answered a second time, before the new one. *)
Theorem reenable_answers_the_first_enable_again
    convert js RuntimeAgent PageAgent id1 id2 id3 params1 params2 params3 :
  truthy id1 = true ->
  truthy id2 = true ->
  truthy id3 = true ->
  responses
    (trace (run (_initializeRegistry convert js RuntimeAgent PageAgent)
              [Frontend (command id1 "Debugger.enable" params1);
               Backend Connected;
               Frontend (command id2 "Debugger.disable" params2);
               Frontend (command id3 "Debugger.enable" params3);
               Backend Connected] initial))
  = [(id1, VUndefined, VUndefined); (id2, VUndefined, VUndefined);
     (id1, VUndefined, VUndefined); (id3, VUndefined, VUndefined)].
Proof.
  intros Hid1 Hid2 Hid3. unfold run. cbn [fold_left step].
  rewrite (dispatch_to_DebuggerAgent convert js RuntimeAgent PageAgent id1
             "Debugger.enable" "enable" enable params1 eq_refl eq_refl).
  rewrite (dispatch_to_DebuggerAgent convert js RuntimeAgent PageAgent id2
             "Debugger.disable" "disable" disable params2 eq_refl eq_refl).
  rewrite (dispatch_to_DebuggerAgent convert js RuntimeAgent PageAgent id3
             "Debugger.enable" "enable" enable params3 eq_refl eq_refl).
  by settle.
Qed.

Lemma reenable_answers_the_first_enable_again_witness :
  responses
    (trace (run example_handler
              [Frontend (command (VNum 1) "Debugger.enable" VUndefined);
               Backend Connected;
               Frontend (command (VNum 2) "Debugger.disable" VUndefined);
               Frontend (command (VNum 3) "Debugger.enable" VUndefined);
               Backend Connected] initial))
  = [(VNum 1, VUndefined, VUndefined); (VNum 2, VUndefined, VUndefined);
     (VNum 1, VUndefined, VUndefined); (VNum 3, VUndefined, VUndefined)].
Proof.
  exact (reenable_answers_the_first_enable_again example_convert example_js ∅ ∅
           (VNum 1) (VNum 2) (VNum 3) VUndefined VUndefined VUndefined
           eq_refl eq_refl eq_refl).
Defined.

(** ** Live edit, where it goes wrong *)

(** A live edit that the backend refuses is the error of the command, and
    a reply without an error and without a result makes the callback throw.
    In both cases no call frames are fetched, the next-pause callback is not
    armed, and nothing happens for the command when the backend pauses
    later. *)
Theorem failed_live_edit_arms_nothing
    convert js RuntimeAgent PageAgent id fields err response stimuli :
  truthy id = true ->
  let run_edit :=
    trace (run (_initializeRegistry convert js RuntimeAgent PageAgent)
             (Frontend (command id "Debugger.setScriptSource" (VObj fields))
              :: (Backend <$> [Reply 0 err response] ++ stimuli))
             initial) in
  let asked := [Called (changelive_request convert fields);
                Got (Reply 0 err response)] in
  (truthy err = true ->
   run_edit = asked ++ [Did (SendResponse id err VUndefined)] ++ (Got <$> stimuli))
  /\ (truthy err = false ->
      not_nullish (field "result" response) = false ->
      run_edit = asked ++ [Uncaught "TypeError"] ++ (Got <$> stimuli)).
Proof.
  intros Hid run_edit asked. subst run_edit asked. split.
  - intros Herr.
    rewrite (dispatch_Debugger_settled convert js RuntimeAgent PageAgent id
               "Debugger.setScriptSource" "setScriptSource" (setScriptSource convert)
               (VObj fields) [Reply 0 err response]
               [Called (changelive_request convert fields);
                Got (Reply 0 err response); Completed err VUndefined]
               stimuli eq_refl eq_refl).
    + simpl. unfold method_result_calls. by rewrite Hid.
    + unfold react. simpl. by rewrite Herr.
  - intros Herr Hresult.
    rewrite (dispatch_Debugger_settled convert js RuntimeAgent PageAgent id
               "Debugger.setScriptSource" "setScriptSource" (setScriptSource convert)
               (VObj fields) [Reply 0 err response]
               [Called (changelive_request convert fields);
                Got (Reply 0 err response); Uncaught "TypeError"]
               stimuli eq_refl eq_refl).
    + done.
    + unfold react. simpl. rewrite Herr.
      destruct response as [| | | | |items|body]; simpl; try done.
      simpl in Hresult. by destruct (assoc "result" body).
Qed.

Lemma failed_live_edit_arms_nothing_witness :
  trace (run example_handler
           (Frontend (command (VNum 4) "Debugger.setScriptSource"
                        (VObj [("scriptId", VStr "12"); ("scriptSource", VStr "x = ")]))
            :: (Backend <$> [Reply 0 (VStr "SyntaxError") VUndefined] ++ [Break VNull]))
           initial)
  = [Called (changelive_request example_convert
               [("scriptId", VStr "12"); ("scriptSource", VStr "x = ")]);
     Got (Reply 0 (VStr "SyntaxError") VUndefined);
     Did (SendResponse (VNum 4) (VStr "SyntaxError") VUndefined);
     Got (Break VNull)].
Proof.
  exact (proj1 (failed_live_edit_arms_nothing example_convert example_js ∅ ∅
                  (VNum 4) [("scriptId", VStr "12"); ("scriptSource", VStr "x = ")]
                  (VStr "SyntaxError") VUndefined [Break VNull] eq_refl)
               eq_refl).
Defined.

Lemma responses_Got stimuli : responses (Got <$> stimuli) = [].
Proof. induction stimuli as [|s stimuli IH]; [done|]. apply IH. Qed.

(** The next-pause callback is one slot: when a second live edit needs a
    step-in while the first still waits for its pause, the second callback
    replaces the first.  The pause then answers the second edit only, and the
    first edit is not answered, then or later. *)
Theorem second_step_in_edit_takes_the_slot
    convert js RuntimeAgent PageAgent id1 id2 fields1 fields2
    more1 more2 data frames stimuli :
  truthy id1 = true ->
  truthy id2 = true ->
  let outcome more := VObj (("stack_update_needs_step_in", VBool true) :: more) in
  let w := run (_initializeRegistry convert js RuntimeAgent PageAgent)
             [Frontend (command id1 "Debugger.setScriptSource" (VObj fields1));
              Backend (Reply 0 VNull (VObj [("result", outcome more1)]));
              Backend (Reply 0 VNull VUndefined);
              Frontend (command id2 "Debugger.setScriptSource" (VObj fields2));
              Backend (Reply 0 VNull (VObj [("result", outcome more2)]));
              Backend (Reply 0 VNull VUndefined);
              Backend (Break data);
              Backend (Reply 0 VNull (VArr frames))] initial in
  responses (trace (reactions stimuli w))
  = [(id2, VNull, VObj [("callFrames", VArr frames); ("result", outcome more2)])].
Proof.
  intros Hid1 Hid2 outcome w.
  assert (Hw : listeners w = [] /\ outstanding w = []
               /\ callbackForNextBreak w = None
               /\ responses (trace w)
                  = [(id2, VNull,
                      VObj [("callFrames", VArr frames); ("result", outcome more2)])]).
  { unfold w, outcome.
    destruct id1 as [| |[|]|[|p1|p1]|[|c1 s1]|items1|object1]; try discriminate Hid1;
      destruct id2 as [| |[|]|[|p2|p2]|[|c2 s2]|items2|object2]; try discriminate Hid2;
      repeat split; vm_compute; reflexivity. }
  destruct Hw as (Hl & Ho & Hc & Hr).
  rewrite reactions_quiet by done.
  by rewrite responses_app, Hr, responses_Got.
Qed.

Lemma second_step_in_edit_takes_the_slot_witness :
  responses
    (trace (reactions [Break VNull]
       (run example_handler
          [Frontend (command (VNum 4) "Debugger.setScriptSource"
                       (VObj [("scriptId", VStr "12"); ("scriptSource", VStr "x = 1")]));
           Backend (Reply 0 VNull
                      (VObj [("result",
                              VObj [("stack_update_needs_step_in", VBool true)])]));
           Backend (Reply 0 VNull VUndefined);
           Frontend (command (VNum 5) "Debugger.setScriptSource"
                       (VObj [("scriptId", VStr "12"); ("scriptSource", VStr "x = 2")]));
           Backend (Reply 0 VNull
                      (VObj [("result",
                              VObj [("stack_update_needs_step_in", VBool true)])]));
           Backend (Reply 0 VNull VUndefined);
           Backend (Break VNull);
           Backend (Reply 0 VNull (VArr [VStr "frame"]))] initial)))
  = [(VNum 5, VNull,
      VObj [("callFrames", VArr [VStr "frame"]);
            ("result", VObj [("stack_update_needs_step_in", VBool true)])])].
Proof.
  exact (second_step_in_edit_takes_the_slot example_convert example_js ∅ ∅
           (VNum 4) (VNum 5)
           [("scriptId", VStr "12"); ("scriptSource", VStr "x = 1")]
           [("scriptId", VStr "12"); ("scriptSource", VStr "x = 2")]
           [] [] VNull [VStr "frame"] [Break VNull]
           eq_refl eq_refl).
Defined.

(** After a failed step-into the next-pause callback stays armed: the
    command is answered when the call frames arrive, and answered a second
    time, under the same id, when the backend pauses later. *)
Theorem failed_step_into_answers_twice
    convert js RuntimeAgent PageAgent id fields body outcome
    continueError continueResult frames1 data frames2 :
  truthy id = true ->
  assoc "result" body = VObj outcome ->
  truthy (assoc "stack_update_needs_step_in" outcome) = true ->
  truthy continueError = true ->
  responses
    (trace (run (_initializeRegistry convert js RuntimeAgent PageAgent)
              [Frontend (command id "Debugger.setScriptSource" (VObj fields));
               Backend (Reply 0 VNull (VObj body));
               Backend (Reply 0 continueError continueResult);
               Backend (Reply 0 VNull (VArr frames1));
               Backend (Break data);
               Backend (Reply 0 VNull (VArr frames2))] initial))
  = [(id, VNull, VObj [("callFrames", VArr frames1); ("result", VObj outcome)]);
     (id, VNull, VObj [("callFrames", VArr frames2); ("result", VObj outcome)])].
Proof.
  intros Hid Hbody Hneeds Hcontinue. unfold run. cbn [fold_left step].
  dispatch "Debugger.setScriptSource" "setScriptSource" (setScriptSource convert).
  by settle.
Qed.

Lemma failed_step_into_answers_twice_witness :
  responses
    (trace (run example_handler
              [Frontend (command (VNum 4) "Debugger.setScriptSource"
                           (VObj [("scriptId", VStr "12");
                                  ("scriptSource", VStr "x = 1")]));
               Backend (Reply 0 VNull
                          (VObj [("result",
                                  VObj [("stack_update_needs_step_in", VBool true)])]));
               Backend (Reply 0 (VStr "not paused") VUndefined);
               Backend (Reply 0 VNull (VArr [VStr "frame"]));
               Backend (Break VUndefined);
               Backend (Reply 0 VNull (VArr []))]
              initial))
  = [(VNum 4, VNull,
      VObj [("callFrames", VArr [VStr "frame"]);
            ("result", VObj [("stack_update_needs_step_in", VBool true)])]);
     (VNum 4, VNull,
      VObj [("callFrames", VArr []);
            ("result", VObj [("stack_update_needs_step_in", VBool true)])])].
Proof.
  exact (failed_step_into_answers_twice example_convert example_js ∅ ∅
           (VNum 4) [("scriptId", VStr "12"); ("scriptSource", VStr "x = 1")]
           [("result", VObj [("stack_update_needs_step_in", VBool true)])]
           [("stack_update_needs_step_in", VBool true)]
           (VStr "not paused") VUndefined [VStr "frame"] VUndefined []
           eq_refl eq_refl eq_refl eq_refl).
Defined.

(** ** enable before the connection is up *)

Lemma reactions_without_connect stimuli w :
  outstanding w = [] -> callbackForNextBreak w = None ->
  ~ In Connected stimuli ->
  trace (reactions stimuli w) = trace w ++ (Got <$> stimuli).
Proof.
  revert w. induction stimuli as [|s stimuli IH]; intros w Ho Hc Hnot; simpl.
  - by rewrite app_nil_r.
  - assert (Hs : s <> Connected) by (intros ->; apply Hnot; by left).
    assert (Hstep : outstanding (react s w) = []
                    /\ callbackForNextBreak (react s w) = None
                    /\ trace (react s w) = trace w ++ [Got s]).
    { unfold react. destruct s as [n err response| |data|b]; simpl.
      - rewrite Ho. by destruct n.
      - done.
      - by rewrite Hc.
      - done. }
    destruct Hstep as (Ho' & Hc' & Ht').
    rewrite IH; [|done|done|intros Hin; apply Hnot; by right].
    rewrite Ht'. by rewrite <- app_assoc.
Qed.

(** enable asks for the connection and completes only from the 'connect'
    listener: as long as no 'connect' is emitted, whatever else happens, the
    call is not answered and no request is made of the backend. *)
Theorem enable_waits_for_connect
    convert js RuntimeAgent PageAgent id params stimuli :
  ~ In Connected stimuli ->
  trace (run (_initializeRegistry convert js RuntimeAgent PageAgent)
           (Frontend (command id "Debugger.enable" params) :: (Backend <$> stimuli))
           initial)
  = Did Connect :: (Got <$> stimuli).
Proof.
  intros Hnot.
  rewrite (dispatch_Debugger_trace convert js RuntimeAgent PageAgent id
             "Debugger.enable" "enable" enable params _ eq_refl eq_refl).
  rewrite reactions_without_connect by done. simpl.
  by rewrite expand_Got.
Qed.

Lemma enable_waits_for_connect_witness :
  trace (run example_handler
           (Frontend (command (VNum 1) "Debugger.enable" VUndefined)
            :: (Backend <$> [Running false; Break VNull; Reply 0 VNull VNull]))
           initial)
  = [Did Connect; Got (Running false); Got (Break VNull); Got (Reply 0 VNull VNull)].
Proof.
  apply (enable_waits_for_connect example_convert example_js ∅ ∅
           (VNum 1) VUndefined [Running false; Break VNull; Reply 0 VNull VNull]).
  simpl. intros [H|[H|[H|[]]]]; discriminate H.
Defined.

(** ** Code that never answers *)

Lemma silent_seq p q : silent p -> silent q -> silent (seq p q).
Proof.
  intros Hp Hq. induction p; simpl in *; try tauto.
Qed.

Lemma silent_with_done done p : silent p -> silent (with_done done p).
Proof.
  induction p as [| |o k IH|e r k IH|c cb IHcb k IH|l IHl k IH|cb IHcb k IH|a IHa b IHb];
    simpl; try tauto.
  - intros [Hcb Hk]. split; [|tauto]. intros err response. by apply IHcb.
  - intros [Hcb Hk]. split; [|tauto]. intros data. by apply IHcb.
Qed.

Lemma silent_listeners ls : Forall silent ls -> silent (foldr seq Ret ls).
Proof.
  induction 1 as [|l ls Hl Hls IH]; simpl; [done|]. by apply silent_seq.
Qed.

Lemma responses_snoc_other t e :
  (forall id error result, e <> Did (SendResponse id error result)) ->
  responses (t ++ [e]) = responses t.
Proof.
  intros He. rewrite responses_app. simpl.
  destruct e as [o| | | |]; simpl; try by rewrite app_nil_r.
  destruct o; simpl; try by rewrite app_nil_r.
  by destruct (He id error result).
Qed.

Lemma exec_silent p w :
  silent p -> silent_world w ->
  silent_world (exec p w) /\ responses (trace (exec p w)) = responses (trace w).
Proof.
  revert w.
  induction p as [| |o k IH|e r k IH|c cb _ k IH|l _ k IH|cb _ k IH|a IHa b IHb];
    intros w Hp Hw; simpl in *.
  - done.
  - split; [done|]. by apply responses_snoc_other.
  - destruct Hp as [Ho Hk].
    destruct (IH (record (Did o) w) Hk Hw) as [Hw' Hr]. split; [done|].
    rewrite Hr. simpl. apply responses_snoc_other.
    intros id error result Heq. injection Heq as ->. by apply (Ho id error result).
  - done.
  - destruct Hp as [Hcb Hk]. destruct Hw as (Hl & Ho & Hc).
    destruct (IH (record (Called c) (set_outstanding (outstanding w ++ [(c, cb)]) w)) Hk)
      as [Hw' Hr].
    { split; [done|]. split; [|done]. simpl.
      apply Forall_app. split; [done|]. by apply Forall_singleton. }
    split; [done|]. rewrite Hr. simpl. by apply responses_snoc_other.
  - destruct Hp as [Hlistener Hk]. destruct Hw as (Hl & Ho & Hc).
    destruct (IH (add_listener l w) Hk) as [Hw' Hr]; [|by split].
    split; [|done]. simpl.
    apply Forall_app. split; [done|]. by apply Forall_singleton.
  - destruct Hp as [Hcb Hk]. destruct Hw as (Hl & Ho & Hc).
    destruct (IH (set_callbackForNextBreak (Some cb) w) Hk) as [Hw' Hr]; [|by split].
    split; [done|]. split; [done|]. simpl.
    intros callback Heq. by injection Heq as <-.
  - destruct Hp as [Ha Hb]. destruct (isRunning w); [by apply IHa|by apply IHb].
Qed.

Lemma react_silent s w :
  silent_world w ->
  silent_world (react s w) /\ responses (trace (react s w)) = responses (trace w).
Proof.
  intros Hw.
  assert (Hrec : silent_world (record (Got s) w)
                 /\ responses (trace (record (Got s) w)) = responses (trace w)).
  { split; [done|]. simpl. by apply responses_snoc_other. }
  destruct Hrec as [Hw' Hr]. destruct Hw' as (Hl & Ho & Hc).
  unfold react. destruct s as [n err response| |data|b]; simpl.
  - destruct (outstanding w !! n) as [[c callback]|] eqn:Hn; [|done].
    destruct (exec_silent (callback err response)
                (set_outstanding (delete n (outstanding w)) (record (Got (Reply n err response)) w)))
      as [Hw'' Hr''].
    + simpl in Ho. rewrite Forall_lookup in Ho. by apply (Ho n (c, callback) Hn).
    + split; [done|]. split; [|done]. simpl. by apply Forall_delete.
    + split; [done|]. by rewrite Hr''.
  - destruct (exec_silent (foldr seq Ret (listeners w)) (record (Got Connected) w))
      as [Hw'' Hr''].
    + by apply silent_listeners.
    + done.
    + split; [done|]. by rewrite Hr''.
  - destruct (callbackForNextBreak w) as [callback|] eqn:Hcb; [|done].
    destruct (exec_silent (callback data)
                (set_callbackForNextBreak None (record (Got (Break data)) w)))
      as [Hw'' Hr''].
    + by apply (Hc callback).
    + split; [done|]. split; [done|]. simpl. intros cb' Heq. discriminate Heq.
    + split; [done|]. by rewrite Hr''.
  - done.
Qed.

Lemma reactions_silent stimuli w :
  silent_world w ->
  responses (trace (reactions stimuli w)) = responses (trace w).
Proof.
  revert w. induction stimuli as [|s stimuli IH]; intros w Hw; simpl; [done|].
  destruct (react_silent s w Hw) as [Hw' Hr]. by rewrite IH, Hr.
Qed.

Lemma silent_or_noop done :
  (forall x, silent (invoke done x)) -> forall x, silent (invoke (or_noop done) x).
Proof.
  intros Hdone x. destruct done as [f|v]; simpl; [apply Hdone|].
  by destruct (truthy v).
Qed.

Lemma silent_iterate arr iterator callback :
  (forall x, silent (invoke callback x)) ->
  (forall item next, (forall x, silent (next x)) -> silent (iterator item next)) ->
  silent (iterate arr iterator callback).
Proof.
  intros Hcb Hit. induction arr as [|item arr IH]; simpl; [apply Hcb|].
  apply Hit. intros err. by destruct (truthy err).
Qed.

Lemma silent_removeOneBreakpoint bp next :
  (forall x, silent (next x)) -> silent (removeOneBreakpoint bp next).
Proof.
  intros Hnext. unfold removeOneBreakpoint.
  assert (H : forall number,
    silent (Async (ClearBreakpoint number)
              (fun error _ =>
                 if truthy error then
                   Out (Log [VStr "Warning: cannot remove old breakpoint %d. %s";
                             number; error])
                       (next VUndefined)
                 else next VUndefined)
              Ret)).
  { intros number. simpl. split; [|done]. intros error _.
    destruct (truthy error); simpl; [|done]. by split. }
  destruct bp; simpl; try done; apply H.
Qed.

Lemma silent_removeAllBreakpoints done :
  (forall x, silent (invoke done x)) -> silent (_removeAllBreakpoints done).
Proof.
  intros Hdone. unfold _removeAllBreakpoints. simpl. split; [|done].
  intros err response. destruct (truthy err); simpl; [by split|].
  assert (H : forall breakpoints,
    silent (as_array breakpoints (fun breakpoints =>
              eachSeries breakpoints removeOneBreakpoint done))).
  { intros breakpoints. destruct breakpoints; simpl; try done.
    unfold eachSeries. apply silent_iterate.
    - by apply silent_or_noop.
    - intros item next. apply silent_removeOneBreakpoint. }
  destruct response; simpl; try done; apply H.
Qed.

Lemma silent_reloadScripts done :
  (forall x, silent (invoke done x)) -> silent (_reloadScripts done).
Proof.
  intros Hdone. unfold _reloadScripts. simpl. split; [done|]. split; [|done].
  intros err result. destruct (truthy err); [apply Hdone|].
  destruct result; simpl; try done.
  apply silent_seq; [|apply Hdone].
  induction items as [|script scripts IH]; simpl; [done|]. by split.
Qed.

Lemma silent_sendBacktraceIfPaused done :
  (forall x, silent (invoke done x)) -> silent (_sendBacktraceIfPaused done).
Proof. intros Hdone. unfold _sendBacktraceIfPaused. simpl. by repeat split. Qed.

Lemma silent_onDebuggerConnect : silent _onDebuggerConnect.
Proof.
  unfold _onDebuggerConnect. cbn [waterfall].
  apply silent_removeAllBreakpoints. intros x. cbn [invoke].
  destruct (truthy x); [exact I|].
  apply silent_reloadScripts. intros y. cbn [invoke].
  destruct (truthy y); [exact I|].
  apply silent_sendBacktraceIfPaused. intros z. cbn [invoke].
  destruct (truthy z); exact I.
Qed.

(** The helpers of the agent are reachable by name, but a command that
    reaches [_onDebuggerConnect], [_removeAllBreakpoints], [_reloadScripts]
    or [_sendBacktraceIfPaused] is never answered, whatever its id and params
    and whatever the backend does afterwards. *)
Theorem helper_commands_are_never_answered
    convert js RuntimeAgent PageAgent id params fullMethodName stimuli :
  In fullMethodName helper_commands ->
  responses
    (trace (run (_initializeRegistry convert js RuntimeAgent PageAgent)
              (Frontend (command id fullMethodName params) :: (Backend <$> stimuli))
              initial))
  = [].
Proof.
  intros Hin. rewrite run_frontend.
  assert (Hgoal : forall methodName method,
    split "." fullMethodName = ["Debugger"; methodName] ->
    DebuggerAgent convert js !! methodName = Some (PFun method) ->
    silent (method params) ->
    responses
      (trace (reactions stimuli
                (step (_initializeRegistry convert js RuntimeAgent PageAgent)
                      (Frontend (command id fullMethodName params)) initial)))
    = []).
  { intros methodName method Hsplit Hp Hsilent. unfold step.
    rewrite (dispatch_to_DebuggerAgent convert js RuntimeAgent PageAgent id
               fullMethodName methodName method params Hsplit Hp).
    assert (Hinitial : silent_world initial).
    { split; [constructor|]. split; [constructor|]. intros callback Heq.
      discriminate Heq. }
    destruct (exec_silent
                (with_done
                   (fun error result =>
                      _handleMethodResult id fullMethodName error result)
                   (method params))
                initial (silent_with_done _ _ Hsilent) Hinitial) as [Hw Hr].
    by rewrite reactions_silent, Hr. }
  simpl in Hin. destruct Hin as [Hin|[Hin|[Hin|[Hin|[]]]]]; subst fullMethodName.
  - apply (Hgoal "_onDebuggerConnect" (fun _ => _onDebuggerConnect) eq_refl eq_refl).
    apply silent_onDebuggerConnect.
  - apply (Hgoal "_removeAllBreakpoints"
             (fun params => _removeAllBreakpoints (NotFn params)) eq_refl eq_refl).
    by apply silent_removeAllBreakpoints.
  - apply (Hgoal "_reloadScripts"
             (fun params => _reloadScripts (NotFn params)) eq_refl eq_refl).
    by apply silent_reloadScripts.
  - apply (Hgoal "_sendBacktraceIfPaused"
             (fun params => _sendBacktraceIfPaused (NotFn params)) eq_refl eq_refl).
    by apply silent_sendBacktraceIfPaused.
Qed.

Lemma helper_commands_are_never_answered_witness :
  responses
    (trace (run example_handler
              (Frontend (command (VNum 6) "Debugger._reloadScripts" (VObj []))
               :: (Backend <$> [Reply 0 VNull (VArr [])]))
              initial))
  = [].
Proof.
  apply (helper_commands_are_never_answered example_convert example_js ∅ ∅
           (VNum 6) (VObj []) "Debugger._reloadScripts" [Reply 0 VNull (VArr [])]).
  simpl. right. right. left. reflexivity.
Defined.

(** setBreakpointsActive reads its params only when it comes to the first
    breakpoint: without params it answers without an error when the backend
    lists no breakpoint, and throws, after the list and before any change,
    when the backend lists one or more. *)
Theorem setBreakpointsActive_without_params
    convert js RuntimeAgent PageAgent id params err body :
  truthy id = true ->
  not_nullish params = false ->
  truthy err = false ->
  let t := trace (run (_initializeRegistry convert js RuntimeAgent PageAgent)
                    [Frontend (command id "Debugger.setBreakpointsActive" params);
                     Backend (Reply 0 err (VObj body))] initial) in
  let listed := [Called (Request "listbreakpoints" (VObj []));
                 Got (Reply 0 err (VObj body))] in
  (assoc "breakpoints" body = VArr [] ->
   t = listed ++ [Did (SendResponse id VUndefined VUndefined)])
  /\ (forall bp rest,
        assoc "breakpoints" body = VArr (VObj bp :: rest) ->
        t = listed ++ [Uncaught "TypeError"]).
Proof.
  intros Hid Hparams Herr t listed. subst t listed.
  unfold run. cbn [fold_left step].
  dispatch "Debugger.setBreakpointsActive" "setBreakpointsActive" setBreakpointsActive.
  split.
  - intros Hbody. by settle.
  - intros bp rest Hbody. destruct params; try discriminate Hparams; by settle.
Qed.

Lemma setBreakpointsActive_without_params_witness :
  trace (run example_handler
           [Frontend (command (VNum 1) "Debugger.setBreakpointsActive" VUndefined);
            Backend (Reply 0 VNull
                       (VObj [("breakpoints", VArr [VObj [("number", VNum 1)]])]))]
           initial)
  = [Called (Request "listbreakpoints" (VObj []));
     Got (Reply 0 VNull (VObj [("breakpoints", VArr [VObj [("number", VNum 1)]])]));
     Uncaught "TypeError"].
Proof.
  destruct (setBreakpointsActive_without_params example_convert example_js ∅ ∅
              (VNum 1) VUndefined VNull
              [("breakpoints", VArr [VObj [("number", VNum 1)]])]
              eq_refl eq_refl eq_refl) as (_ & H).
  exact (H [("number", VNum 1)] [] eq_refl).
Defined.
